(** * The forecasting engine of [app/routers/forecasting.py]

    A shallow embedding of [generate_forecast] and
    [generate_shap_explanations], with the properties their
    specification states.

    Conventions of the embedding.
    - A finite Python [float] ([amounts], [predicted],
      [model_accuracy], ...) is a rational [Q], and equality of such
      values is [Qeq] ([==]).  Arithmetic on them is the exact one,
      except on the trend step (lines 271-272): there the rounding and
      the range of floats show in the answer, and the quotient, the
      sum, the products and the power are those of the interface
      [PyFloat]: they round, the power raises [OverflowError] beyond
      the range, and a product beyond it is an infinity.
    - A cell of the pandas frame is a [cell]: a number, [NaN] or an
      infinity, since [shift], [diff] and [pct_change] produce them.
    - numpy's transcendental functions, scikit-learn's estimators and
      the float operations of the trend step lie outside the
      repository: they are the interfaces [Numpy], [Sklearn] and
      [PyFloat], and every theorem holds for all their instances.  The
      examples run on stand-ins for them.
    - [try ... except Exception] is the error type [exc].
    - The database session is outside the embedding: the functions take
      the rows that [result.fetchall()] returned.  The [insights]
      strings (formatted text, lines 287-319) are no field of the
      result here; they are embedded apart, as [generate_insights]. *)

From Stdlib Require Import String ZArith QArith Qround Qabs Qpower.
From Stdlib Require Import List Bool Lia Lqa.
Import ListNotations.

Local Open Scope Q_scope.

(** ** Python and numpy primitives *)

(** [a < b] on floats. *)
Definition Qltb (a b : Q) : bool := negb (Qle_bool b a).

(** Python's [max(a, b)]: the first argument unless the second is
    greater. *)
Definition py_max (a b : Q) : Q := if Qltb a b then b else a.

(** Python's [min(a, b)]: the first argument unless the second is
    smaller. *)
Definition py_min (a b : Q) : Q := if Qltb b a then b else a.

(** [round(x)] to the nearest integer, ties to even. *)
Definition round_half_even (q : Q) : Z :=
  let f := Qfloor q in
  match Qcompare (q - inject_Z f) (1 # 2) with
  | Lt => f
  | Gt => (f + 1)%Z
  | Eq => if Z.even f then f else (f + 1)%Z
  end.

(** [round(x, 2)]. *)
Definition round2 (q : Q) : Q := round_half_even (q * 100) # 100.

(** [range(a, b)]. *)
Definition py_range (a b : Z) : list Z :=
  map (fun k => (a + Z.of_nat k)%Z) (seq 0 (Z.to_nat (b - a))).

(** [max(l)] of a non-empty list of integers. *)
Definition py_max_list (l : list Z) : Z :=
  match l with
  | [] => 0%Z
  | x :: t => fold_left Z.max t x
  end.

(** [l[-k:]]. *)
Definition py_tail {A} (k : nat) (l : list A) : list A :=
  skipn (length l - k) l.

Definition Qsum (l : list Q) : Q := fold_right Qplus 0 l.

(** [np.mean(l)]. *)
Definition np_mean (l : list Q) : Q := Qsum l / inject_Z (Z.of_nat (length l)).

(** [np.diff(l)]: the successive differences [l[k+1] - l[k]]. *)
Fixpoint np_diff (l : list Q) : list Q :=
  match l with
  | a :: (b :: _) as t => (b - a) :: np_diff t
  | _ => []
  end.

(** [try ... except Exception]: a computation returns or raises. *)
Inductive exc (A : Type) : Type :=
| Return (a : A)
| Raise.
Arguments Return {A} a.
Arguments Raise {A}.

Definition bind {A B} (c : exc A) (k : A -> exc B) : exc B :=
  match c with
  | Return a => k a
  | Raise => Raise
  end.

Notation "x <- c ;; k" := (bind c (fun x => k))
  (at level 61, c at next level, right associativity).

(** What a request handler gives back: a value, an [HTTPException]
    that FastAPI turns into an error response, or a value in which a
    float is an infinity or nan ([NonFinite]): the results here have
    rational fields and do not hold such a value. *)
Inductive response (A : Type) : Type :=
| Success (a : A)
| HTTPException (status_code : Z) (detail : string)
| NonFinite.
Arguments Success {A} a.
Arguments HTTPException {A} status_code detail.
Arguments NonFinite {A}.

(** ** pandas frame of engineered features (lines 176-191) *)

Inductive cell : Type :=
| Num (q : Q)
| NaN
| Inf (negative : bool).

Definition isna (c : cell) : bool :=
  match c with NaN => true | _ => false end.

(** [Series.fillna(v)]. *)
Definition fillna (v : Q) (col : list cell) : list cell :=
  map (fun c => if isna c then Num v else c) col.

(** [Series.bfill()]: a missing cell takes the next valid one. *)
Fixpoint bfill (col : list cell) : list cell :=
  match col with
  | [] => []
  | c :: t =>
      let t' := bfill t in
      (if isna c then hd NaN t' else c) :: t'
  end.

(** [Series.ffill()]: a missing cell takes the previous valid one. *)
Fixpoint ffill_from (prev : cell) (col : list cell) : list cell :=
  match col with
  | [] => []
  | c :: t =>
      let c' := if isna c then prev else c in
      c' :: ffill_from c' t
  end.

Definition ffill (col : list cell) : list cell := ffill_from NaN col.

(** [Series.shift(k)]. *)
Definition shift (k : nat) (col : list Q) : list cell :=
  firstn (length col) (repeat NaN k ++ map Num col).

(** [Series.diff()]. *)
Definition diff (col : list Q) : list cell :=
  match col with
  | [] => []
  | _ :: _ => NaN :: map Num (np_diff col)
  end.

(** The window of [rolling(window=w, min_periods=1)] that ends at
    position [i]. *)
Definition window (w : nat) (col : list Q) (i : nat) : list Q :=
  skipn (i + 1 - w) (firstn (i + 1) col).

Definition rolling {A} (w : nat) (f : list Q -> A) (col : list Q) : list A :=
  map (fun i => f (window w col i)) (seq 0 (length col)).

(** Quotient of two floats, as numpy divides: a zero divisor gives
    [NaN] or an infinity instead of raising. *)
Definition float_div (a b : Q) : cell :=
  if Qeq_bool b 0 then
    if Qeq_bool a 0 then NaN else Inf (Qltb a 0)
  else Num (a / b).

Definition cell_sub1 (c : cell) : cell :=
  match c with
  | Num q => Num (q - 1)
  | _ => c
  end.

(** [Series.pct_change()]: [col / col.shift(1) - 1]. *)
Fixpoint pct_change_from (prev : Q) (col : list Q) : list cell :=
  match col with
  | [] => []
  | a :: t => cell_sub1 (float_div a prev) :: pct_change_from a t
  end.

Definition pct_change (col : list Q) : list cell :=
  match col with
  | [] => []
  | a :: t => NaN :: pct_change_from a t
  end.

(** The columns of [df] after line 191. *)
Record DataFrame : Type := {
  col_year : list Z;
  col_amount : list Q;
  col_year_idx : list Z;
  col_lag1 : list cell;
  col_lag2 : list cell;
  col_trend : list cell;
  col_rolling_mean_3 : list cell;
  col_volatility : list cell;
  col_growth_rate : list cell;
  col_year_sin : list cell;
  col_year_cos : list cell
}.

(** One row of [df[feature_cols]]. *)
Record FeatureRow : Type := {
  f_year_idx : Z;
  f_lag1 : cell;
  f_lag2 : cell;
  f_trend : cell;
  f_rolling_mean_3 : cell;
  f_volatility : cell;
  f_growth_rate : cell;
  f_year_sin : cell;
  f_year_cos : cell
}.

Class Numpy : Type := {
  np_pi : Q;
  np_sin : Q -> Q;
  np_cos : Q -> Q;
  np_sqrt : Q -> Q
}.

Section Features.
Context {NP : Numpy}.

(** The sample standard deviation ([ddof=1]) of a rolling window;
    undefined on a single sample. *)
Definition window_std (l : list Q) : cell :=
  match l with
  | [] | [_] => NaN
  | _ =>
      let m := np_mean l in
      Num (np_sqrt (Qsum (map (fun x => (x - m) * (x - m)) l)
                    / inject_Z (Z.of_nat (length l - 1))))
  end.

Definition len (df : DataFrame) : nat := length (col_year df).

Definition fill (col : list cell) : list cell := ffill (bfill col).

(** [max(len(df), 8)]. *)
Definition cycle_period (n : nat) : Z := Z.max (Z.of_nat n) 8.

Definition year_sin (n : nat) (idx : Z) : Q :=
  np_sin (2 * np_pi * inject_Z idx / inject_Z (cycle_period n)).

Definition year_cos (n : nat) (idx : Z) : Q :=
  np_cos (2 * np_pi * inject_Z idx / inject_Z (cycle_period n)).

Definition build_features (years : list Z) (amounts : list Q) : DataFrame :=
  let n := length years in
  let year_idx := py_range 0 (Z.of_nat n) in
  {| col_year := years;
     col_amount := amounts;
     col_year_idx := year_idx;
     col_lag1 := fill (shift 1 amounts);
     col_lag2 := fill (shift 2 amounts);
     col_trend := fill (diff amounts);
     col_rolling_mean_3 := fill (rolling 3 (fun w => Num (np_mean w)) amounts);
     col_volatility := fill (fillna 0 (rolling 3 window_std amounts));
     col_growth_rate := fill (fillna 0 (pct_change amounts));
     col_year_sin := fill (map (fun i => Num (year_sin n i)) year_idx);
     col_year_cos := fill (map (fun i => Num (year_cos n i)) year_idx) |}.

Definition feature_row (df : DataFrame) (i : nat) : FeatureRow :=
  {| f_year_idx := nth i (col_year_idx df) 0%Z;
     f_lag1 := nth i (col_lag1 df) NaN;
     f_lag2 := nth i (col_lag2 df) NaN;
     f_trend := nth i (col_trend df) NaN;
     f_rolling_mean_3 := nth i (col_rolling_mean_3 df) NaN;
     f_volatility := nth i (col_volatility df) NaN;
     f_growth_rate := nth i (col_growth_rate df) NaN;
     f_year_sin := nth i (col_year_sin df) NaN;
     f_year_cos := nth i (col_year_cos df) NaN |}.

(** [df[feature_cols]], row by row. *)
Definition feature_rows (df : DataFrame) : list FeatureRow :=
  map (feature_row df) (seq 0 (len df)).

(** [df[feature_cols].iloc[2:]] and [df['amount'].iloc[2:]]. *)
Definition X_train (df : DataFrame) : list FeatureRow := skipn 2 (feature_rows df).
Definition y_train (df : DataFrame) : list Q := skipn 2 (col_amount df).

(** The row handed to [model.predict] at step [i] (lines 241-244):
    the last feature row with its position and cycle fields replaced. *)
Definition new_features (df : DataFrame) (i : Z) : FeatureRow :=
  let last := feature_row df (len df - 1) in
  let year_idx := (Z.of_nat (len df) + i - 1)%Z in
  {| f_year_idx := year_idx;
     f_lag1 := f_lag1 last;
     f_lag2 := f_lag2 last;
     f_trend := f_trend last;
     f_rolling_mean_3 := f_rolling_mean_3 last;
     f_volatility := f_volatility last;
     f_growth_rate := f_growth_rate last;
     f_year_sin := Num (year_sin (len df) year_idx);
     f_year_cos := Num (year_cos (len df) year_idx) |}.

End Features.

(** ** scikit-learn *)

(** The estimators the code constructs, with the arguments it passes
    ([max_depth] is [None] where the call leaves the default). *)
Inductive Regressor : Type :=
| RandomForestRegressor (n_estimators : Z) (random_state : Z)
| GradientBoostingRegressor
    (n_estimators : Z) (learning_rate : Q) (max_depth : option Z)
    (random_state : Z).

(** [model.fit], [model.predict] and [r2_score].  Each may raise;
    [r2_score] may return nan ([None]), as it does on a single sample. *)
Class Sklearn : Type := {
  Fitted : Type;
  fit : Regressor -> list FeatureRow -> list Q -> exc Fitted;
  predict : Fitted -> list FeatureRow -> exc (list Q);
  r2_score : list Q -> list Q -> exc (option Q)
}.

(** ** Requests and results *)

Module Row.
Record t : Type := { year : Z; total_aid : option Q }.
End Row.

Module ForecastRequest.
Record t : Type := {
  country : string;
  sector : option string;
  years : Z;
  model : string
}.
End ForecastRequest.

Module PredictionPoint.
Record t : Type := { year : Z; predicted : Q; lower : Q; upper : Q }.
End PredictionPoint.

(** The [accuracy] dictionary of a result. *)
Record accuracy_metrics : Type := {
  prophet : Q;
  xgboost : Q;
  hybrid : Q;
  confidence : Q;
  method : string
}.

Module ForecastResult.
Record t : Type := {
  country : string;
  sector : option string;
  predictions : list PredictionPoint.t;
  accuracy : accuracy_metrics;
  featureImportance : list (string * Q)
}.
End ForecastResult.

Module SHAPRequest.
Record t : Type := {
  country : string;
  sector : option string;
  model : string;
  years : Z
}.
End SHAPRequest.

Module SHAPExplanation.
Record t : Type := {
  feature : string;
  impact : Q;
  description : string;
  category : string
}.
End SHAPExplanation.

Module SHAPResult.
Record t : Type := {
  explanations : list SHAPExplanation.t;
  model_prediction : Q;
  base_value : Q;
  country : string;
  sector : option string
}.
End SHAPResult.

(** ** Model selection (lines 195-203) *)

Definition select_model (model : string) (n : nat) : Regressor * Q :=
  if (model =? "prophet")%string || (n <? 5)%nat then
    (RandomForestRegressor 100 42, 86.5)
  else if (model =? "xgboost")%string then
    (GradientBoostingRegressor 100 0.1 None 42, 89.2)
  else
    (GradientBoostingRegressor 150 0.08 (Some 4%Z) 42, 91.8).

(** [max(75.0, min(expected_accuracy, r2_accuracy * 100))] (line 220).
    A comparison with nan is false, so [min] keeps its first argument
    when the score is nan. *)
Definition accuracy_of_r2 (expected_accuracy : Q) (r2_accuracy : option Q) : Q :=
  py_max 75.0
    match r2_accuracy with
    | Some r2 => py_min expected_accuracy (r2 * 100)
    | None => expected_accuracy
    end.

(** The accuracy dictionary (lines 330-354). *)
Definition accuracy_dict (model : string) (use_ml : bool) (model_accuracy : Q)
  : accuracy_metrics :=
  if (model =? "prophet")%string then
    {| prophet := model_accuracy;
       xgboost := if use_ml then 89.2 else 84.5;
       hybrid := if use_ml then 91.8 else 88.1;
       confidence := model_accuracy;
       method := if use_ml then "Random Forest (Prophet Mode)"
                 else "Trend Analysis" |}
  else if (model =? "xgboost")%string then
    {| prophet := if use_ml then 86.5 else 82.1;
       xgboost := model_accuracy;
       hybrid := if use_ml then 91.8 else 88.1;
       confidence := model_accuracy;
       method := if use_ml then "Gradient Boosting (XGBoost Mode)"
                 else "Trend Analysis" |}
  else
    {| prophet := if use_ml then 86.5 else 82.1;
       xgboost := if use_ml then 89.2 else 84.5;
       hybrid := model_accuracy;
       confidence := model_accuracy;
       method := if use_ml then "Advanced Gradient Boosting (Hybrid Mode)"
                 else "Trend Analysis" |}.

Definition feature_importance : list (string * Q) :=
  [ ("Historical Trend", 0.35);
    ("GDP Growth", 0.25);
    ("Political Stability", 0.20);
    ("Natural Disasters", 0.12);
    ("Regional Conflicts", 0.08) ]%string.

(** [(amounts[-1] - amounts[0]) / (len(amounts) - 1) if len(amounts) > 1
    else 0] (line 233). *)
Definition avg_annual_change (amounts : list Q) : Q :=
  if (1 <? length amounts)%nat then
    (last amounts 0 - hd 0 amounts) / inject_Z (Z.of_nat (length amounts) - 1)
  else 0.

(** Lines 275-285: the bounds and the rounded point. *)
Definition make_point (forecast_year : Z) (predicted variability : Q)
  : PredictionPoint.t :=
  let lower := py_max 0 (predicted - variability) in
  let upper := predicted + variability in
  let predicted := py_max 0 predicted in
  {| PredictionPoint.year := forecast_year;
     PredictionPoint.predicted := round2 predicted;
     PredictionPoint.lower := round2 lower;
     PredictionPoint.upper := round2 upper |}.

(** A rational [m / 2 ^ e] with [|m| < 2 ^ 53] and [e <= 1022]: each of
    them is a float. *)
Definition small_dyadic (q : Q) : Prop :=
  exists (m : Z) (e : nat),
    (Z.abs m < 2 ^ 53)%Z /\ (e <= 1022)%nat /\
    q * inject_Z (2 ^ Z.of_nat e) == inject_Z m.

(** Python's float arithmetic, as the trend step uses it: [x + y],
    [x * y], [x / y] (the step divides by a positive amount only) and
    [x ** i] on floats, finite or not.  The first three round to the
    nearest float and give an infinity beyond the range; [**] raises
    [OverflowError] there.  What the interface knows of them is what
    rounding to the nearest float grants: an exact result that is a
    float is returned as it is, and [x ** 1] is [x]. *)
Class PyFloat : Type := {
  py_add : cell -> cell -> cell;
  py_mul : cell -> cell -> cell;
  py_div : cell -> cell -> cell;
  py_pow : cell -> Z -> exc cell;
  py_add_exact : forall x y : Q,
    small_dyadic (x + y) ->
    exists q, py_add (Num x) (Num y) = Num q /\ q == x + y;
  py_mul_exact : forall x y : Q,
    small_dyadic (x * y) ->
    exists q, py_mul (Num x) (Num y) = Num q /\ q == x * y;
  py_div_exact : forall x y : Q,
    ~ y == 0 -> small_dyadic (x / y) ->
    exists q, py_div (Num x) (Num y) = Num q /\ q == x / y;
  py_pow_one : forall x : Q,
    small_dyadic x ->
    exists q, py_pow (Num x) 1 = Return (Num q) /\ q == x
}.

(** Lines 271-272: [base_amount * (growth_factor ** i)], a float that
    may be infinite; the power may raise. *)
Definition trend_value {PF : PyFloat} (base_amount avg : Q) (i : Z)
  : exc cell :=
  let growth_factor :=
    if Qltb 0 base_amount then
      py_add (Num 1)
        (py_mul (py_div (Num avg) (Num base_amount)) (Num 0.5))
    else Num 1.05 in
  power <- py_pow growth_factor i ;;
  Return (py_mul (Num base_amount) power).

(** The trend branch of the loop (lines 270-273): the pair [(predicted,
    variability)] of a finite prediction; a prediction that is an
    infinity or nan is kept as it is. *)
Definition trend_step {PF : PyFloat} (base_amount avg : Q) (i : Z)
  : exc (Q * Q + cell) :=
  predicted <- trend_value base_amount avg i ;;
  match predicted with
  | Num predicted => Return (inl (predicted, Qabs predicted * 0.20))
  | _ => Return (inr predicted)
  end.

(** The handler of a failed step (lines 265-268). *)
Definition except_step (base_amount avg : Q) (i : Z) : Q * Q :=
  let predicted := base_amount + (avg * inject_Z i) in
  (predicted, Qabs predicted * 0.20).

(** The [for] loop: the steps run in order, and the first error that
    leaves a step ends the loop. *)
Fixpoint collect {A} (steps : list (exc A)) : exc (list A) :=
  match steps with
  | [] => Return []
  | step :: rest =>
      a <- step ;;
      l <- collect rest ;;
      Return (a :: l)
  end.

(** The points of the loop when each of them is finite. *)
Fixpoint all_finite {A} (points : list (A + cell)) : option (list A) :=
  match points with
  | [] => Some []
  | inl a :: rest => option_map (cons a) (all_finite rest)
  | inr _ :: _ => None
  end.

Section Forecast.
Context {NP : Numpy} {SK : Sklearn} {PF : PyFloat}.

(** The state the training block (lines 194, 205-225) leaves behind. *)
Record Trained : Type := {
  use_ml : bool;
  model_accuracy : Q;
  fitted : option Fitted
}.

Definition fit_and_score (model : Regressor) (expected_accuracy : Q)
  (df : DataFrame) : exc (Fitted * Q) :=
  m <- fit model (X_train df) (y_train df) ;;
  train_predictions <- predict m (X_train df) ;;
  r2_accuracy <- r2_score (y_train df) train_predictions ;;
  Return (m, accuracy_of_r2 expected_accuracy r2_accuracy).

Definition train (model : Regressor) (expected_accuracy : Q) (df : DataFrame)
  : Trained :=
  if (3 <=? len df)%nat then
    match fit_and_score model expected_accuracy df with
    | Return (m, acc) =>
        {| use_ml := true; model_accuracy := acc; fitted := Some m |}
    | Raise =>
        {| use_ml := false; model_accuracy := 75.0; fitted := None |}
    end
  else {| use_ml := false; model_accuracy := 80.0; fitted := None |}.

(** [np.mean(np.diff(amounts[-3:])) if len(amounts) >= 3 else
    avg_annual_change] (line 252). *)
Definition recent_trend (amounts : list Q) : Q :=
  if (3 <=? length amounts)%nat then np_mean (np_diff (py_tail 3 amounts))
  else avg_annual_change amounts.

(** The corrections applied to a raw model output (lines 249-263). *)
Definition adjust (amounts : list Q) (acc : Q) (i : Z) (raw : Q) : Q * Q :=
  let base_amount := last amounts 0 in
  let predicted :=
    if (i =? 1)%Z && Qltb (Qabs (raw - base_amount)) 1.0 then
      base_amount + (recent_trend amounts * 0.75)
    else raw in
  let predicted :=
    if (1 <? i)%Z then predicted + avg_annual_change amounts * 0.5 * inject_Z i
    else predicted in
  let confidence_factor := (100 - acc) / 100 * 0.25 + 0.10 in
  (predicted, Qabs predicted * confidence_factor).

(** The body of the inner [try] (lines 240-263).  Indexing an empty
    result with [[0]] raises. *)
Definition ml_step (df : DataFrame) (amounts : list Q) (acc : Q) (m : Fitted)
  (i : Z) : exc (Q * Q) :=
  out <- predict m [new_features df i] ;;
  match out with
  | raw :: _ => Return (adjust amounts acc i raw)
  | [] => Raise
  end.

(** One iteration of the loop (lines 235-285).  The inner [try] covers
    the model branch alone: an error of the trend branch leaves the
    step.  The step gives its point; of a trend prediction that is not
    finite, from which lines 273-284 make a point whose fields are not
    all finite, it gives the prediction itself. *)
Definition forecast_step (df : DataFrame) (amounts : list Q) (st : Trained)
  (last_year : Z) (i : Z) : exc (PredictionPoint.t + cell) :=
  let base_amount := last amounts 0 in
  let forecast_year := (last_year + i)%Z in
  values <-
    match use_ml st, fitted st with
    | true, Some m =>
        match ml_step df amounts (model_accuracy st) m i with
        | Return pv => Return (inl pv)
        | Raise =>
            Return (inl (except_step base_amount (avg_annual_change amounts) i))
        end
    | _, _ => trend_step base_amount (avg_annual_change amounts) i
    end ;;
  match values with
  | inl (predicted, variability) =>
      Return (inl (make_point forecast_year predicted variability))
  | inr predicted => Return (inr predicted)
  end.

(** [float(row.total_aid or 0)]. *)
Definition float_or_0 (v : option Q) : Q :=
  match v with Some q => q | None => 0 end.

(** [str(e)] of the [OverflowError] that [**] raises, as the C library
    words it on Linux. *)
Definition overflow_message : string :=
  "(34, 'Numerical result out of range')".

(** The handler, from the fetched rows on (lines 166-363).  Its last
    clause (lines 367-369) turns any other error into a 500 answer:
    among the operations embedded here the power of line 272 is the one
    that raises outside the two inner [try] blocks. *)
Definition generate_forecast (request : ForecastRequest.t)
  (historical_data : list Row.t) : response ForecastResult.t :=
  match historical_data with
  | [] =>
      HTTPException 404
        ("No historical data found for " ++ ForecastRequest.country request)
  | _ :: _ =>
      let years := map Row.year historical_data in
      let amounts := map (fun row => float_or_0 (Row.total_aid row))
                         historical_data in
      if (length amounts <? 2)%nat then
        HTTPException 400 "Insufficient historical data for forecasting"
      else
        let df := build_features years amounts in
        let '(model, expected_accuracy) :=
          select_model (ForecastRequest.model request) (len df) in
        let st := train model expected_accuracy df in
        let last_year := py_max_list years in
        match collect (map (forecast_step df amounts st last_year)
                           (py_range 1 (ForecastRequest.years request + 1)))
        with
        | Raise =>
            HTTPException 500 ("Error generating forecast: " ++ overflow_message)
        | Return points =>
            match all_finite points with
            | Some predictions =>
                Success
                  {| ForecastResult.country := ForecastRequest.country request;
                     ForecastResult.sector := ForecastRequest.sector request;
                     ForecastResult.predictions := predictions;
                     ForecastResult.accuracy :=
                       accuracy_dict (ForecastRequest.model request)
                                     (use_ml st) (model_accuracy st);
                     ForecastResult.featureImportance := feature_importance |}
            | None => NonFinite
            end
        end
  end.

(** The [predicted] field of the last point of a forecast that was
    returned with a float that is not finite, when that field is finite
    itself: [round(max(0, predicted), 2)] (lines 278 and 282) is an
    infinity for a positive infinity, and 0 for a negative one and for
    nan, with which every comparison is false. *)
Definition last_prediction (request : ForecastRequest.t)
  (historical_data : list Row.t) : option Q :=
  let years := map Row.year historical_data in
  let amounts := map (fun row => float_or_0 (Row.total_aid row))
                     historical_data in
  let df := build_features years amounts in
  let '(model, expected_accuracy) :=
    select_model (ForecastRequest.model request) (len df) in
  let st := train model expected_accuracy df in
  match collect (map (forecast_step df amounts st (py_max_list years))
                     (py_range 1 (ForecastRequest.years request + 1)))
  with
  | Return points =>
      match last points (inr NaN) with
      | inl point => Some (PredictionPoint.predicted point)
      | inr (Inf false) => None
      | inr _ => Some 0
      end
  | Raise => None
  end.

End Forecast.

(** ** SHAP-style explanations (lines 390-603) *)

Definition explanation (feature : string) (impact : Q)
  (description category : string) : SHAPExplanation.t :=
  {| SHAPExplanation.feature := feature;
     SHAPExplanation.impact := impact;
     SHAPExplanation.description := description;
     SHAPExplanation.category := category |}.

Definition short_term_explanations : list SHAPExplanation.t :=
  [ explanation "Historical Trend" 1.31947
      "Positive long-term aid flow pattern indicates sustained donor commitment"
      "temporal";
    explanation "Aid Volatility" (-0.08732)
      "Low variability in aid flows affects prediction confidence"
      "stability";
    explanation "Recent Growth" 0.01368
      "Stable aid flows in recent years suggest predictable patterns"
      "momentum";
    explanation "Development Stage" 0.2
      "High development needs drive continued aid requirements"
      "structural";
    explanation "Economic Cycle" 0.14266
      "Global economic conditions favor aid allocation to this region"
      "external";
    explanation "Political Stability" 0.06507
      "Stable political environment affects aid predictability and effectiveness"
      "governance" ].

Definition medium_term_explanations : list SHAPExplanation.t :=
  [ explanation "Development Stage" 1.45
      "Medium-term development needs become primary driver of aid allocation"
      "structural";
    explanation "Historical Trend" 0.95
      "Past aid patterns influence medium-term projections with moderate weight"
      "temporal";
    explanation "Economic Cycle" 0.28
      "Global economic cycles impact medium-term aid commitment sustainability"
      "external";
    explanation "Political Stability" 0.18
      "Government stability affects medium-term aid program effectiveness"
      "governance";
    explanation "Regional Context" 0.12
      "Regional development patterns influence aid allocation strategy"
      "regional";
    explanation "Aid Volatility" (-0.03)
      "Funding variability has reduced impact over medium timeframes"
      "stability" ].

Definition long_term_explanations : list SHAPExplanation.t :=
  [ explanation "Development Stage" 1.82
      "Long-term development trajectory becomes dominant factor in aid forecasting"
      "structural";
    explanation "Climate Impact" 0.67
      "Climate change effects drive long-term aid requirements for adaptation"
      "environmental";
    explanation "Economic Transformation" 0.45
      "Economic development patterns shape long-term aid needs and graduation"
      "economic";
    explanation "Demographic Trends" 0.32
      "Population growth and urbanization affect long-term development aid"
      "demographic";
    explanation "Historical Trend" 0.15
      "Past patterns have minimal influence on long-term structural changes"
      "temporal";
    explanation "Global Governance" 0.08
      "International policy frameworks shape long-term aid architecture"
      "governance" ].

(** Lines 473-592: the list is chosen by the horizon alone. *)
Definition explanations_for (years : Z) : list SHAPExplanation.t :=
  if (years <=? 3)%Z then short_term_explanations
  else if (years <=? 5)%Z then medium_term_explanations
  else long_term_explanations.

(** [[{"year": row.year, "amount": float(row.total_aid)} for row in
    result]] (line 428): [float(None)] raises. *)
Fixpoint to_historical (rows : list Row.t) : exc (list (Z * Q)) :=
  match rows with
  | [] => Return []
  | row :: t =>
      match Row.total_aid row with
      | Some q => h <- to_historical t ;; Return ((Row.year row, q) :: h)
      | None => Raise
      end
  end.

(** The request of the nested forecast (lines 437-442). *)
Definition to_forecast_request (request : SHAPRequest.t) : ForecastRequest.t :=
  {| ForecastRequest.country := SHAPRequest.country request;
     ForecastRequest.sector := SHAPRequest.sector request;
     ForecastRequest.model := SHAPRequest.model request;
     ForecastRequest.years := SHAPRequest.years request |}.

Section Explanations.
Context {NP : Numpy} {SK : Sklearn} {PF : PyFloat}.

(** [shap_query] is what the handler's own query gives (it may raise),
    [forecast_rows] the rows that the nested call of
    [generate_forecast] fetches.  Any error of the nested call, its 500
    answer included, is caught at line 455.  The last handler (lines
    607-629) is not embedded: nothing in the embedded body raises a
    non-HTTP error. *)
Definition generate_shap_explanations (request : SHAPRequest.t)
  (shap_query : exc (list Row.t)) (forecast_rows : list Row.t)
  : response SHAPResult.t :=
  let historical_data :=
    match rows <- shap_query ;; to_historical rows with
    | Return h => h
    | Raise => []
    end in
  let result (base_value latest_amount : Q) :=
    Success
      {| SHAPResult.explanations :=
           explanations_for (SHAPRequest.years request);
         SHAPResult.model_prediction := latest_amount;
         SHAPResult.base_value := base_value;
         SHAPResult.country := SHAPRequest.country request;
         SHAPResult.sector := SHAPRequest.sector request |} in
  let after_forecast (final_prediction : Q) :=
    let amounts :=
      match historical_data with
      | [] => [25000]
      | _ :: _ => map snd historical_data
      end in
    result (np_mean amounts) final_prediction in
  match generate_forecast (to_forecast_request request) forecast_rows with
  | Success forecast_result =>
      after_forecast
        match ForecastResult.predictions forecast_result with
        | [] => 25000
        | p :: t => PredictionPoint.predicted (last t p)
        end
  | NonFinite =>
      match last_prediction (to_forecast_request request) forecast_rows with
      | Some final_prediction => after_forecast final_prediction
      | None => NonFinite
      end
  | HTTPException _ _ =>
      if (3 <=? length historical_data)%nat then
        let amounts := map snd historical_data in
        let recent_trend :=
          (last amounts 0 - nth (length amounts - 3) amounts 0) / 2 in
        result (np_mean amounts) (last amounts 0 + recent_trend)
      else
        HTTPException 404
          ("No forecast or historical data found for "
             ++ SHAPRequest.country request)
  end.

End Explanations.

(** ** Concrete library instances, to run the code on examples *)

(** Stand-ins for numpy: the cycle and volatility features are only
    read by the estimator. *)
Definition numpy_zero : Numpy :=
  {| np_pi := 884279719003555 # 281474976710656;
     np_sin := fun _ => 0;
     np_cos := fun _ => 1;
     np_sqrt := fun x => x |}.

(** An estimator that memorises the last training target and predicts
    it everywhere, with in-sample score [r2]; it refuses to predict the
    step whose position is [bad_idx]. *)
Definition constant_model (r2 : option Q) (bad_idx : Z) : Sklearn :=
  {| Fitted := Q;
     fit := fun _ _ y => Return (last y 0);
     predict := fun m X =>
       if existsb (fun r => (f_year_idx r =? bad_idx)%Z) X then Raise
       else Return (map (fun _ => m) X);
     r2_score := fun _ _ => Return r2 |}.

(** An estimator whose [fit] always raises. *)
Definition failing_model : Sklearn :=
  {| Fitted := unit;
     fit := fun _ _ _ => Raise;
     predict := fun _ _ => Raise;
     r2_score := fun _ _ => Raise |}.

(** The greatest float, [(2 ^ 53 - 1) * 2 ^ 971]. *)
Definition float_max : Q := inject_Z ((2 ^ 53 - 1) * 2 ^ 971).

Definition in_float_range (q : Q) : bool := Qle_bool (Qabs q) float_max.

(** A stand-in for the float arithmetic: exact within the range of
    floats, and beyond it an infinity, or [OverflowError] for the
    power.  Operands that are not finite give nan here: the examples
    have none. *)
Definition finite_or_inf (q : Q) : cell :=
  if in_float_range q then Num q else Inf (Qltb q 0).

Definition exact_op (op : Q -> Q -> Q) (a b : cell) : cell :=
  match a, b with
  | Num x, Num y => finite_or_inf (op x y)
  | _, _ => NaN
  end.

Definition exact_pow (a : cell) (i : Z) : exc cell :=
  match a with
  | Num x => if in_float_range (x ^ i) then Return (Num (x ^ i)) else Raise
  | _ => Return NaN
  end.

Definition float_exact : PyFloat.
Proof.
  assert (Hr : forall q, small_dyadic q -> in_float_range q = true).
  { intros q (m & e & Hm & _ & E).
    apply Qle_bool_iff, Qabs_Qle_condition.
    assert (HP : 1 <= inject_Z (2 ^ Z.of_nat e)).
    { change 1 with (inject_Z 1). rewrite <- Zle_Qle.
      pose proof (Z.pow_pos_nonneg 2 (Z.of_nat e)). lia. }
    assert (HB : inject_Z (2 ^ 53) <= float_max).
    { unfold float_max. rewrite <- Zle_Qle. apply Z.leb_le. reflexivity. }
    assert (HM : - inject_Z (2 ^ 53) <= inject_Z m <= inject_Z (2 ^ 53)).
    { rewrite <- inject_Z_opp, <- !Zle_Qle. lia. }
    assert (H0 : 0 <= inject_Z (2 ^ 53)).
    { change 0 with (inject_Z 0). rewrite <- Zle_Qle. lia. }
    revert HP HB HM H0 E.
    generalize (inject_Z (2 ^ Z.of_nat e)) (inject_Z (2 ^ 53)) (inject_Z m)
               float_max.
    intros P B M F HP HB HM H0 E. split; nra. }
  refine {| py_add := exact_op Qplus;
            py_mul := exact_op Qmult;
            py_div := exact_op Qdiv;
            py_pow := exact_pow |}.
  - intros x y H. exists (x + y). split; [|reflexivity].
    cbn [exact_op]. unfold finite_or_inf. now rewrite (Hr _ H).
  - intros x y H. exists (x * y). split; [|reflexivity].
    cbn [exact_op]. unfold finite_or_inf. now rewrite (Hr _ H).
  - intros x y _ H. exists (x / y). split; [|reflexivity].
    cbn [exact_op]. unfold finite_or_inf. now rewrite (Hr _ H).
  - intros x H. exists (x ^ 1). split.
    + cbn [exact_pow].
      assert (E : x ^ 1 == x) by (cbn; reflexivity).
      assert (Hx : in_float_range (x ^ 1) = true).
      { apply Hr. destruct H as (m & e & Hm & He & Hq).
        exists m, e. split; [exact Hm|]. split; [exact He|].
        rewrite E. exact Hq. }
      now rewrite Hx.
    + cbn. reflexivity.
Defined.

Definition row (year : Z) (total_aid : Q) : Row.t :=
  {| Row.year := year; Row.total_aid := Some total_aid |}.

Definition forecast_request (years : Z) (model : string) : ForecastRequest.t :=
  {| ForecastRequest.country := "India";
     ForecastRequest.sector := None;
     ForecastRequest.years := years;
     ForecastRequest.model := model |}.

Definition shap_request (years : Z) (model : string) : SHAPRequest.t :=
  {| SHAPRequest.country := "India";
     SHAPRequest.sector := None;
     SHAPRequest.model := model;
     SHAPRequest.years := years |}.

(** The scenario of the specification, and shorter series. *)
Definition series_2020_2023 : list Row.t :=
  [row 2020 100; row 2021 120; row 2022 150; row 2023 200].

Definition series_three_points : list Row.t :=
  [row 2020 100; row 2021 120; row 2022 150].

Definition series_two_points : list Row.t := [row 2020 100; row 2021 120].

(** Aid that falls from 1000 to 1 between two years. *)
Definition series_falling : list Row.t := [row 2020 1000; row 2021 1].

(** Estimators for the examples: one that always answers, one that has
    no in-sample score (a single training row), one that raises at the
    first forecast step of a four-point series. *)
Definition sk_answers : Sklearn := constant_model (Some 0.9) (-1).
Definition sk_no_score : Sklearn := constant_model None (-1).
Definition sk_raises_at_first_step : Sklearn := constant_model (Some 0.9) 4.

(** ** Views of the intermediate values of [generate_forecast] *)

Definition years_of (historical_data : list Row.t) : list Z :=
  map Row.year historical_data.

Definition amounts_of (historical_data : list Row.t) : list Q :=
  map (fun row => float_or_0 (Row.total_aid row)) historical_data.

Section Views.
Context {NP : Numpy} {SK : Sklearn} {PF : PyFloat}.

Definition frame_of (historical_data : list Row.t) : DataFrame :=
  build_features (years_of historical_data) (amounts_of historical_data).

(** The state after the training block, for a request and its series. *)
Definition training (request : ForecastRequest.t)
  (historical_data : list Row.t) : Trained :=
  let df := frame_of historical_data in
  let selected := select_model (ForecastRequest.model request) (len df) in
  train (fst selected) (snd selected) df.

(** What step [i] gives, for a request and its series. *)
Definition point_at (request : ForecastRequest.t)
  (historical_data : list Row.t) (i : Z) : exc (PredictionPoint.t + cell) :=
  forecast_step (frame_of historical_data) (amounts_of historical_data)
    (training request historical_data)
    (py_max_list (years_of historical_data)) i.

End Views.

(** ** The specification's formulas, in its own words *)

(** §4.4, fallback path: [last_amount * (1 + 0.5 * average_annual_change
    / last_amount) ^ step_index], with growth factor 1.05 when
    [last_amount] is zero. *)
Definition geometric_trend (last_amount average_annual_change : Q)
  (step_index : Z) : Q :=
  let growth :=
    if Qeq_bool last_amount 0 then 1.05
    else 1 + 0.5 * average_annual_change / last_amount in
  last_amount * growth ^ step_index.

(** The same formula as floats evaluate it, the quotient
    [average_annual_change / last_amount] being taken first and halved
    next: the value is a float, finite or not, unless the power
    raises. *)
Definition float_geometric_trend {PF : PyFloat}
  (last_amount average_annual_change : Q) (step_index : Z) : exc cell :=
  let growth :=
    if Qeq_bool last_amount 0 then Num 1.05
    else py_add (Num 1)
           (py_mul (py_div (Num average_annual_change) (Num last_amount))
                   (Num 0.5)) in
  power <- py_pow growth step_index ;;
  Return (py_mul (Num last_amount) power).

(** [clamp(x, lo, hi)]. *)
Definition clamp (x lo hi : Q) : Q :=
  if Qltb x lo then lo else if Qltb hi x then hi else x.

(** §4.3: the configuration that each identifier names. *)
Definition configuration_of (model : string) : Regressor * Q :=
  if (model =? "prophet")%string then (RandomForestRegressor 100 42, 86.5)
  else if (model =? "xgboost")%string then
    (GradientBoostingRegressor 100 0.1 None 42, 89.2)
  else (GradientBoostingRegressor 150 0.08 (Some 4%Z) 42, 91.8).

Definition expected_ceiling (model : string) : Q := snd (configuration_of model).

(** The flat-prediction override as §4.4 words it: the mean of the last
    up-to-3 first differences of the observed amounts. *)
Definition override_of_last_3_differences (amounts : list Q) : Q :=
  last amounts 0 + 0.75 * np_mean (py_tail 3 (np_diff amounts)).

(** ** Further views, for the properties beyond the claims *)

Section StepViews.
Context {NP : Numpy} {SK : Sklearn} {PF : PyFloat}.

(** The pair [(predicted, variability)] that step [i] hands to lines
    275-285, before flooring and rounding. *)
Definition step_values (request : ForecastRequest.t)
  (historical_data : list Row.t) (i : Z) : exc (Q * Q + cell) :=
  let st := training request historical_data in
  let amounts := amounts_of historical_data in
  match use_ml st, fitted st with
  | true, Some m =>
      match ml_step (frame_of historical_data) amounts (model_accuracy st) m i with
      | Return pv => Return (inl pv)
      | Raise =>
          Return (inl (except_step (last amounts 0) (avg_annual_change amounts) i))
      end
  | _, _ => trend_step (last amounts 0) (avg_annual_change amounts) i
  end.

End StepViews.

(** [historical_data] of the explanation handler (lines 397-432): the
    rows of its own query, or nothing when the query or a conversion
    raised. *)
Definition usable_history (shap_query : exc (list Row.t)) : list (Z * Q) :=
  match rows <- shap_query ;; to_historical rows with
  | Return h => h
  | Raise => []
  end.

(** No cell of a feature row is missing. *)
Definition row_complete (r : FeatureRow) : bool :=
  negb (isna (f_lag1 r) || isna (f_lag2 r) || isna (f_trend r)
        || isna (f_rolling_mean_3 r) || isna (f_volatility r)
        || isna (f_growth_rate r) || isna (f_year_sin r)
        || isna (f_year_cos r)).

(** The order that the bounds of a point are meant to have. *)
Definition interval_ordered (p : PredictionPoint.t) : Prop :=
  0 <= PredictionPoint.lower p /\
  PredictionPoint.lower p <= PredictionPoint.predicted p /\
  PredictionPoint.predicted p <= PredictionPoint.upper p.

(** ** Cross-validated accuracy (lines 40-127) *)

(** [round(x, n)] with [scale = 10 ** n]. *)
Definition round_at (scale : positive) (q : Q) : Q :=
  round_half_even (q * inject_Z (Z.pos scale)) # scale.

Definition round1 : Q -> Q := round_at 10.
Definition round3 : Q -> Q := round_at 1000.

(** The estimators of the [models] dictionary (lines 63-67), with the
    arguments passed. *)
Inductive CVModel : Type :=
| CVRandomForest (n_estimators : Z) (random_state : Z)
| CVGradientBoosting (n_estimators : Z) (learning_rate : option Q)
    (random_state : Z).

(** One row of [X] (line 59). *)
Record CVFeatures : Type := {
  cv_year_idx : Z;
  cv_lag1 : cell;
  cv_lag2 : cell;
  cv_trend : cell;
  cv_rolling_mean : cell
}.

(** One row of [df] (lines 47-52). *)
Record CVRow : Type := {
  cv_year : Z;
  cv_amount : Q;
  cv_features : CVFeatures
}.

(** [cross_val_score(model, X, y, cv=TimeSeriesSplit(n_splits),
    scoring='r2')]: one score per split, nan for a split that failed;
    the call itself may raise. *)
Class ModelSelection : Type := {
  cross_val_score :
    CVModel -> nat -> list CVFeatures -> list Q -> exc (list (option Q))
}.

(** What [calculate_model_accuracy] returns: a dictionary with a note,
    or one with the scores. *)
Inductive accuracy_report : Type :=
| Noted (accuracy : Q) (note : string)
| Scored (accuracy : Q) (r2_score : Q) (cv_scores : nat).

(** [report["accuracy"]]. *)
Definition report_accuracy (r : accuracy_report) : Q :=
  match r with
  | Noted a _ => a
  | Scored a _ _ => a
  end.

(** The frame of lines 47-52.  The amounts are numbers: [amount] is a
    non-nullable float column, so every yearly sum is one. *)
Definition cv_frame (historical_data : list (Z * Q)) : list CVRow :=
  let years := map fst historical_data in
  let amounts := map snd historical_data in
  let lag1 := shift 1 amounts in
  let lag2 := shift 2 amounts in
  let trend := diff amounts in
  let rolling_mean := rolling 3 (fun w => Num (np_mean w)) amounts in
  map (fun i =>
         {| cv_year := nth i years 0%Z;
            cv_amount := nth i amounts 0;
            cv_features :=
              {| cv_year_idx := Z.of_nat i;
                 cv_lag1 := nth i lag1 NaN;
                 cv_lag2 := nth i lag2 NaN;
                 cv_trend := nth i trend NaN;
                 cv_rolling_mean := nth i rolling_mean NaN |} |})
      (seq 0 (length historical_data)).

(** [df.dropna()]: a row with a missing cell goes. *)
Definition cv_row_isna (r : CVRow) : bool :=
  isna (cv_lag1 (cv_features r)) || isna (cv_lag2 (cv_features r))
  || isna (cv_trend (cv_features r)) || isna (cv_rolling_mean (cv_features r)).

Definition dropna (df : list CVRow) : list CVRow :=
  filter (fun r => negb (cv_row_isna r)) df.

(** [df[[...]].fillna(method='bfill')] (line 59), column by column. *)
Definition cv_X (df : list CVRow) : list CVFeatures :=
  let rows := map cv_features df in
  let lag1 := bfill (map cv_lag1 rows) in
  let lag2 := bfill (map cv_lag2 rows) in
  let trend := bfill (map cv_trend rows) in
  let rolling_mean := bfill (map cv_rolling_mean rows) in
  map (fun i =>
         {| cv_year_idx := nth i (map cv_year_idx rows) 0%Z;
            cv_lag1 := nth i lag1 NaN;
            cv_lag2 := nth i lag2 NaN;
            cv_trend := nth i trend NaN;
            cv_rolling_mean := nth i rolling_mean NaN |})
      (seq 0 (length df)).

(** [models.get(model_type, models["hybrid"])]. *)
Definition cv_model (model_type : string) : CVModel :=
  if (model_type =? "prophet")%string then CVRandomForest 50 42
  else if (model_type =? "xgboost")%string then CVGradientBoosting 50 None 42
  else CVGradientBoosting 100 (Some 0.1) 42.

(** [np.mean(scores)]: nan as soon as one score is nan, and on no score
    at all. *)
Fixpoint all_numbers (scores : list (option Q)) : option (list Q) :=
  match scores with
  | [] => Some []
  | Some s :: t => option_map (cons s) (all_numbers t)
  | None :: _ => None
  end.

Definition np_mean_scores (scores : list (option Q)) : option Q :=
  match all_numbers scores with
  | Some (s :: t) => Some (np_mean (s :: t))
  | _ => None
  end.

(** [max(0, np.mean(scores))] (line 76): the comparison with nan is
    false, so nan gives 0. *)
Definition avg_r2_of (scores : list (option Q)) : Q :=
  match np_mean_scores scores with
  | Some m => py_max 0 m
  | None => 0
  end.

Section Accuracy.
Context {MS : ModelSelection}.

(** The body of the [try] (lines 43-83). *)
Definition accuracy_body (historical_data : list (Z * Q)) (model_type : string)
  : exc accuracy_report :=
  if (length historical_data <? 5)%nat then Return (Noted 75.0 "Limited data")
  else
    let df := dropna (cv_frame historical_data) in
    if (length df <? 3)%nat then Return (Noted 75.0 "Insufficient data")
    else
      let X := cv_X df in
      let y := map cv_amount df in
      let model := cv_model model_type in
      scores <- cross_val_score model (Nat.min 3 (length X - 1)) X y ;;
      let avg_r2 := avg_r2_of scores in
      let accuracy := py_min 95.0 (py_max 75.0 (avg_r2 * 100)) in
      Return (Scored (round1 accuracy) (round3 avg_r2) (length scores)).

Definition calculate_model_accuracy (historical_data : list (Z * Q))
  (model_type : string) : accuracy_report :=
  match accuracy_body historical_data model_type with
  | Return r => r
  | Raise => Noted 80.0 "Default accuracy"
  end.

(** The cross-validation call of a series of five points or more, as
    the properties below show it to be. *)
Definition cv_call (historical_data : list (Z * Q)) (model_type : string)
  : exc (list (option Q)) :=
  cross_val_score (cv_model model_type)
    (Nat.min 3 (length historical_data - 3))
    (cv_X (dropna (cv_frame historical_data)))
    (skipn 2 (map snd historical_data)).

(** The answer of [GET /accuracy]. *)
Record accuracy_overview : Type := {
  ov_prophet : Q;
  ov_xgboost : Q;
  ov_hybrid : Q;
  ov_last_updated : string;
  ov_validation_method : option string
}.

(** [sample_query] is what the sample query of lines 94-105 gives. *)
Definition get_forecasting_accuracy (sample_query : exc (list (Z * Q)))
  : accuracy_overview :=
  match sample_query with
  | Return sample_data =>
      let prophet_acc := calculate_model_accuracy sample_data "prophet" in
      let xgboost_acc := calculate_model_accuracy sample_data "xgboost" in
      let hybrid_acc := calculate_model_accuracy sample_data "hybrid" in
      {| ov_prophet := report_accuracy prophet_acc;
         ov_xgboost := report_accuracy xgboost_acc;
         ov_hybrid := report_accuracy hybrid_acc;
         ov_last_updated := "2025-08-02";
         ov_validation_method := Some "Time Series Cross-Validation"%string |}
  | Raise =>
      {| ov_prophet := 84.2;
         ov_xgboost := 86.7;
         ov_hybrid := 88.1;
         ov_last_updated := "2025-08-02";
         ov_validation_method := None |}
  end.

End Accuracy.

(** ** The batch client ([generate_all_forecasts.py]) *)

Definition all_countries : list string :=
  [ "India"; "Bangladesh"; "Indonesia"; "Pakistan"; "Philippines";
    "Nigeria"; "Ethiopia"; "Kenya"; "Uzbekistan"; "Myanmar";
    "Ghana"; "Sri Lanka"; "Nepal"; "Mongolia" ]%string.

(** The JSON body of the request (lines 22-27). *)
Definition batch_request (country : string) : ForecastRequest.t :=
  {| ForecastRequest.country := country;
     ForecastRequest.sector := Some "all"%string;
     ForecastRequest.years := 3;
     ForecastRequest.model := "hybrid" |}.

(** A Python dictionary with string keys, in insertion order. *)
Fixpoint dict_set {A} (d : list (string * A)) (k : string) (v : A)
  : list (string * A) :=
  match d with
  | [] => [(k, v)]
  | (k', v') :: t =>
      if (k' =? k)%string then (k, v) :: t else (k', v') :: dict_set t k v
  end.

Fixpoint dict_get {A} (d : list (string * A)) (k : string) : option A :=
  match d with
  | [] => None
  | (k', v) :: t => if (k' =? k)%string then Some v else dict_get t k
  end.

(** Lines 31-35: the first prediction of the wanted year. *)
Definition prediction_of_year (year : Z) (predictions : list PredictionPoint.t)
  : option PredictionPoint.t :=
  find (fun pred => (PredictionPoint.year pred =? year)%Z) predictions.

(** One turn of the loop (lines 20-40).  [post] is [requests.post] on
    the forecast endpoint: it raises when the server cannot be
    reached, and otherwise gives the handler's answer, status 200
    being [Success]; a result with a float that is not finite has no
    JSON form, and is no answer of status 200. *)
Definition batch_step
  (post : ForecastRequest.t -> exc (response ForecastResult.t))
  (forecasts : list (string * Q)) (country : string) : list (string * Q) :=
  match post (batch_request country) with
  | Return (Success data) =>
      match prediction_of_year 2025 (ForecastResult.predictions data) with
      | Some pred => dict_set forecasts country (PredictionPoint.predicted pred)
      | None => forecasts
      end
  | Return (HTTPException _ _) => forecasts
  | Return NonFinite => forecasts
  | Raise => forecasts
  end.

(** What one turn of the loop records for a country, if anything. *)
Definition batch_entry
  (post : ForecastRequest.t -> exc (response ForecastResult.t))
  (country : string) : option Q :=
  match post (batch_request country) with
  | Return (Success data) =>
      option_map PredictionPoint.predicted
        (prediction_of_year 2025 (ForecastResult.predictions data))
  | _ => None
  end.

Definition generate_all_forecasts
  (post : ForecastRequest.t -> exc (response ForecastResult.t))
  : list (string * Q) :=
  fold_left (batch_step post) all_countries [].

Section Server.
Context {NP : Numpy} {SK : Sklearn} {PF : PyFloat}.

(** The endpoint as served: [store] gives, for a country, the rows that
    the unfiltered query of [generate_forecast] fetches (the sector
    "all" adds no filter, line 146). *)
Definition serve (store : string -> list Row.t) (request : ForecastRequest.t)
  : exc (response ForecastResult.t) :=
  Return (generate_forecast request (store (ForecastRequest.country request))).

End Server.

(** Instances and inputs for the examples below. *)

(** Cross-validation that scores every split [s]. *)
Definition cv_scores_all (s : option Q) : ModelSelection :=
  {| cross_val_score := fun _ n_splits _ _ => Return (repeat s n_splits) |}.

(** Cross-validation in which no split gets a score. *)
Definition cv_no_score : ModelSelection := cv_scores_all None.

(** Cross-validation that raises. *)
Definition cv_raises : ModelSelection :=
  {| cross_val_score := fun _ _ _ _ => Raise |}.

Definition sample_2015_2020 : list (Z * Q) :=
  [ (2015%Z, 100); (2016%Z, 120); (2017%Z, 150); (2018%Z, 200);
    (2019%Z, 210); (2020%Z, 260) ].

Definition series_until (last_year : Z) : list Row.t :=
  [row (last_year - 1) 100; row last_year 120].

(** A store with two-point series that end in 2023 for India, in 2020
    for Kenya, a single point for Ghana and nothing elsewhere. *)
Definition small_store (country : string) : list Row.t :=
  if (country =? "India")%string then series_until 2023
  else if (country =? "Kenya")%string then series_until 2020
  else if (country =? "Ghana")%string then [row 2023 500]
  else [].

(** ** Insights (lines 287-319) *)

(** [str.lower()], on the ASCII letters.  The code only compares the
    result with "all", and no other character lower-cases into one of
    its letters. *)
Definition ascii_lower (c : Ascii.ascii) : Ascii.ascii :=
  let n := Ascii.nat_of_ascii c in
  if ((65 <=? n) && (n <=? 90))%nat then Ascii.ascii_of_nat (n + 32) else c.

Fixpoint lower (s : string) : string :=
  match s with
  | EmptyString => EmptyString
  | String c t => String (ascii_lower c) (lower t)
  end.

(** [request.sector and request.sector.lower() != "all"] (lines 146 and
    315): a sector is given, not empty and not "all". *)
Definition sector_filter (sector : option string) : option string :=
  match sector with
  | Some s =>
      if (s =? "")%string || (lower s =? "all")%string then None else Some s
  | None => None
  end.

(** [re.sub(pattern, '', s, flags=re.IGNORECASE)] and [str.strip]. *)
Class PyText : Type := {
  re_sub_ignorecase : string -> string -> string -> string;
  strip : string -> string
}.

(** [int(x)]: truncation towards zero. *)
Definition py_int (q : Q) : Z := Z.quot (Qnum q) (Z.pos (Qden q)).

(** An insight: the sentence of the f-string, with the values that it
    formats. *)
Inductive Insight : Type :=
| StrongGrowth (country : string) (billions_per_year : Q)
| PositiveGrowth (country : string) (millions_per_year : Q)
| ContinuedInvestment
| DecliningBillions (country : string) (billions_per_year : Q)
| DecliningMillions (country : string) (millions_per_year : Q)
| MayIndicateGraduation
| RelativelyStable (country : string)
| ModelConfidence (confidence_level : Z) (uncertainty : Z)
| BaseAmount (base_amount : Q) (last_year : Z)
| SectorAllocation (sector_clean : string).

Section Insights.
Context {PT : PyText}.

(** Lines 316-318. *)
Definition clean_sector (sector : string) : string :=
  let sector_clean :=
    re_sub_ignorecase "^[IVX]+(\.\d+[a-z]*)?\.?\s*" "" sector in
  strip (re_sub_ignorecase "^[a-z]\.?\s*" "" sector_clean).

Definition trend_insights (country : string) (avg_annual_change : Q)
  : list Insight :=
  if Qltb 100 avg_annual_change then
    [ if Qle_bool 1000 (Qabs avg_annual_change)
      then StrongGrowth country (avg_annual_change / 1000)
      else PositiveGrowth country avg_annual_change;
      ContinuedInvestment ]
  else if Qltb avg_annual_change (-100) then
    [ if Qle_bool 1000 (Qabs avg_annual_change)
      then DecliningBillions country (avg_annual_change / 1000)
      else DecliningMillions country avg_annual_change;
      MayIndicateGraduation ]
  else [ RelativelyStable country ].

Definition generate_insights (request : ForecastRequest.t) (amounts : list Q)
  (last_year : Z) (model_accuracy : Q) : list Insight :=
  let base_amount := last amounts 0 in
  let confidence_level := py_int model_accuracy in
  trend_insights (ForecastRequest.country request) (avg_annual_change amounts)
  ++ [ ModelConfidence confidence_level (100 - confidence_level);
       BaseAmount base_amount last_year ]
  ++ match sector_filter (ForecastRequest.sector request) with
     | Some sector => [ SectorAllocation (clean_sector sector) ]
     | None => []
     end.

End Insights.

Section InsightsView.
Context {NP : Numpy} {SK : Sklearn} {PT : PyText}.

(** The insights of a request and its series. *)
Definition insights_of (request : ForecastRequest.t)
  (historical_data : list Row.t) : list Insight :=
  generate_insights request (amounts_of historical_data)
    (py_max_list (years_of historical_data))
    (model_accuracy (training request historical_data)).

End InsightsView.

(** A text library that leaves strings as they are, for the examples. *)
Definition text_identity : PyText :=
  {| re_sub_ignorecase := fun _ _ s => s; strip := fun s => s |}.

(** ** Arithmetic of the primitives *)

Lemma Qltb_lt (a b : Q) : Qltb a b = true <-> a < b.
Proof.
  unfold Qltb. rewrite negb_true_iff. split; intro H.
  - apply Qnot_le_lt. intro Hle. apply Qle_bool_iff in Hle. congruence.
  - destruct (Qle_bool b a) eqn:E; [|reflexivity].
    apply Qle_bool_iff in E. exfalso. exact (Qlt_not_le _ _ H E).
Qed.

Lemma Qltb_ge (a b : Q) : Qltb a b = false <-> b <= a.
Proof.
  unfold Qltb. rewrite negb_false_iff. apply Qle_bool_iff.
Qed.

#[export] Instance Qltb_comp : Proper (Qeq ==> Qeq ==> eq) Qltb.
Proof. intros a a' Ha b b' Hb. unfold Qltb. now rewrite Ha, Hb. Qed.

#[export] Instance py_max_comp : Proper (Qeq ==> Qeq ==> Qeq) py_max.
Proof.
  intros a a' Ha b b' Hb. unfold py_max. rewrite Ha, Hb.
  destruct (Qltb a' b'); assumption.
Qed.

#[export] Instance py_min_comp : Proper (Qeq ==> Qeq ==> Qeq) py_min.
Proof.
  intros a a' Ha b b' Hb. unfold py_min. rewrite Ha, Hb.
  destruct (Qltb b' a'); assumption.
Qed.

Lemma py_max_spec (a b : Q) : a <= py_max a b /\ b <= py_max a b.
Proof.
  unfold py_max. destruct (Qltb a b) eqn:E.
  - apply Qltb_lt in E. split; [apply Qlt_le_weak, E | apply Qle_refl].
  - apply Qltb_ge in E. split; [apply Qle_refl | exact E].
Qed.

Lemma round_half_even_comp (p q : Q) :
  p == q -> round_half_even p = round_half_even q.
Proof.
  intro H. unfold round_half_even.
  rewrite (Qfloor_comp _ _ H).
  assert (Hc : (p - inject_Z (Qfloor q) ?= 1 # 2)
               = (q - inject_Z (Qfloor q) ?= 1 # 2)).
  { apply Qcompare_comp; [rewrite H|]; reflexivity. }
  now rewrite Hc.
Qed.

(** [round(x, 2)] only depends on the value of [x], and yields one
    representation of it. *)
Lemma round2_comp (p q : Q) : p == q -> round2 p = round2 q.
Proof.
  intro H. unfold round2. f_equal. apply round_half_even_comp.
  now rewrite H.
Qed.

Lemma make_point_comp (y : Z) (p p' v v' : Q) :
  p == p' -> v == v' -> make_point y p v = make_point y p' v'.
Proof.
  intros Hp Hv. unfold make_point. f_equal; apply round2_comp.
  - now rewrite Hp.
  - now rewrite Hp, Hv.
  - now rewrite Hp, Hv.
Qed.

Ltac case_Qltb :=
  repeat match goal with
  | |- context [if Qltb ?a ?b then _ else _] =>
      let E := fresh "E" in
      destruct (Qltb a b) eqn:E;
      [apply Qltb_lt in E | apply Qltb_ge in E]
  | H : context [if Qltb ?a ?b then _ else _] |- _ =>
      let E := fresh "E" in
      destruct (Qltb a b) eqn:E;
      [apply Qltb_lt in E | apply Qltb_ge in E]
  end.

Lemma round_half_even_bounds (q : Q) :
  (Qfloor q <= round_half_even q <= Qfloor q + 1)%Z.
Proof.
  unfold round_half_even.
  destruct (Qcompare _ _); [destruct (Z.even _)| |]; lia.
Qed.

Lemma round_half_even_mono (p q : Q) :
  p <= q -> (round_half_even p <= round_half_even q)%Z.
Proof.
  intro H. pose proof (Qfloor_resp_le _ _ H) as Hf.
  destruct (Z.eq_dec (Qfloor p) (Qfloor q)) as [E|NE].
  - unfold round_half_even. rewrite E.
    destruct (Qcompare (p - inject_Z (Qfloor q)) (1 # 2)) eqn:Cp;
      destruct (Qcompare (q - inject_Z (Qfloor q)) (1 # 2)) eqn:Cq;
      try (destruct (Z.even (Qfloor q)); lia); try lia; exfalso.
    + apply Qeq_alt in Cp. apply Qlt_alt in Cq. lra.
    + apply Qgt_alt in Cp. apply Qeq_alt in Cq. lra.
    + apply Qgt_alt in Cp. apply Qlt_alt in Cq. lra.
  - pose proof (round_half_even_bounds p). pose proof (round_half_even_bounds q).
    lia.
Qed.

Lemma round2_mono (p q : Q) : p <= q -> round2 p <= round2 q.
Proof.
  intro H. unfold round2, Qle. cbn [Qnum Qden].
  assert (Hm : p * 100 <= q * 100) by lra.
  pose proof (round_half_even_mono _ _ Hm). nia.
Qed.

Lemma round2_0 : round2 0 == 0.
Proof. reflexivity. Qed.

(** The bounds of lines 275-278 are ordered when the raw prediction is
    not negative. *)
Lemma make_point_ordered (y : Z) (p v : Q) :
  0 <= p -> 0 <= v ->
  let pt := make_point y p v in
  0 <= PredictionPoint.lower pt /\
  PredictionPoint.lower pt <= PredictionPoint.predicted pt /\
  PredictionPoint.predicted pt <= PredictionPoint.upper pt.
Proof.
  intros Hp Hv. cbn. repeat split.
  - apply Qle_trans with (round2 0); [rewrite round2_0; apply Qle_refl|].
    apply round2_mono. apply py_max_spec.
  - apply round2_mono. unfold py_max. case_Qltb; lra.
  - apply round2_mono. unfold py_max. case_Qltb; lra.
Qed.

(** ** [range] and [max] *)

Lemma py_range_length (a b : Z) : length (py_range a b) = Z.to_nat (b - a).
Proof. unfold py_range. now rewrite length_map, length_seq. Qed.

Lemma py_range_nth (a b : Z) (k : nat) :
  (k < Z.to_nat (b - a))%nat ->
  nth_error (py_range a b) k = Some (a + Z.of_nat k)%Z.
Proof.
  intro H. unfold py_range.
  rewrite nth_error_map, nth_error_seq.
  apply Nat.ltb_lt in H. now rewrite H.
Qed.

Lemma fold_max_ge (l : list Z) (x : Z) : (x <= fold_left Z.max l x)%Z.
Proof.
  revert x. induction l as [|y l IH]; intro x; simpl; [lia|].
  specialize (IH (Z.max x y)). lia.
Qed.

Lemma fold_max_bound (l : list Z) (x y : Z) :
  In y l -> (y <= fold_left Z.max l x)%Z.
Proof.
  revert x. induction l as [|z l IH]; intros x Hin; simpl in *; [tauto|].
  destruct Hin as [->|Hin]; [|now apply IH].
  pose proof (fold_max_ge l (Z.max x y)). lia.
Qed.

Lemma fold_max_in (l : list Z) (x : Z) :
  fold_left Z.max l x = x \/ In (fold_left Z.max l x) l.
Proof.
  revert x. induction l as [|z l IH]; intro x; simpl; [now left|].
  destruct (IH (Z.max x z)) as [E|Hin]; [|now right; right].
  rewrite E. destruct (Z.max_spec x z) as [[_ ->]|[_ ->]]; auto.
Qed.

(** [py_max_list] is the greatest element of a non-empty list. *)
Lemma py_max_list_spec (l : list Z) :
  l <> [] -> In (py_max_list l) l /\ forall y, In y l -> (y <= py_max_list l)%Z.
Proof.
  destruct l as [|x l]; [congruence|]. intros _. simpl. split.
  - destruct (fold_max_in l x) as [->|H]; auto.
  - intros y [<-|H]; [apply fold_max_ge | now apply fold_max_bound].
Qed.

(** ** The loop and what it returns *)

Lemma py_range_In (a b i : Z) : In i (py_range a b) <-> (a <= i < b)%Z.
Proof.
  unfold py_range. rewrite in_map_iff. split.
  - intros [k [<- Hk]]. apply in_seq in Hk. lia.
  - intro H. exists (Z.to_nat (i - a)). split; [lia|].
    apply in_seq. lia.
Qed.

Lemma all_finite_inl {A} (l : list A) : all_finite (map inl l) = Some l.
Proof.
  induction l as [|a l IH]; cbn [map all_finite]; [reflexivity|].
  now rewrite IH.
Qed.

Lemma all_finite_inv {A} (points : list (A + cell)) (l : list A) :
  all_finite points = Some l -> points = map inl l.
Proof.
  revert l. induction points as [|[a|c] t IH]; intros l H;
    cbn [all_finite] in H.
  - injection H as <-. reflexivity.
  - destruct (all_finite t) as [l'|]; [|discriminate H].
    injection H as <-. cbn [map]. f_equal. now apply IH.
  - discriminate H.
Qed.

Lemma all_finite_none {A} (points : list (A + cell)) :
  all_finite points = None -> exists c, In (inr c) points.
Proof.
  induction points as [|[a|c] t IH]; cbn [all_finite]; intro H.
  - discriminate H.
  - destruct (all_finite t) as [l|]; [discriminate H|].
    destruct (IH eq_refl) as [c Hc]. exists c. now right.
  - exists c. now left.
Qed.

Lemma collect_inv {A B} (f : B -> exc A) (l : list B) (r : list A) :
  collect (map f l) = Return r -> Forall2 (fun b a => f b = Return a) l r.
Proof.
  revert r. induction l as [|b l IH]; intros r H; cbn [map collect] in H.
  - injection H as <-. constructor.
  - destruct (f b) as [a|] eqn:E; [|discriminate H]. cbn [bind] in H.
    destruct (collect (map f l)) as [r'|]; [|discriminate H].
    cbn [bind] in H. injection H as <-.
    constructor; [exact E | now apply IH].
Qed.

Lemma collect_returns {A B} (f : B -> exc A) (l : list B) (r : list A) :
  Forall2 (fun b a => f b = Return a) l r -> collect (map f l) = Return r.
Proof.
  induction 1 as [|b a l r E _ IH]; cbn [map collect]; [reflexivity|].
  now rewrite E, IH.
Qed.

(** The loop ends in an error exactly when one of its steps raises. *)
Lemma collect_raise {A B} (f : B -> exc A) (l : list B) :
  collect (map f l) = Raise <-> Exists (fun b => f b = Raise) l.
Proof.
  induction l as [|b l IH]; cbn [map collect].
  - split; [discriminate | intro H; inversion H].
  - destruct (f b) as [a|] eqn:E; cbn [bind].
    + destruct (collect (map f l)) as [r|]; cbn [bind].
      * split; [discriminate|]. intro H. inversion H as [? ? Hb|? ? Ht]; subst.
        -- congruence.
        -- apply IH in Ht. discriminate Ht.
      * split; [|reflexivity]. intros _. right. now apply IH.
    + split; [|reflexivity]. intros _. now left.
Qed.

Lemma Forall2_nth {A B} (R : A -> B -> Prop) (l : list A) (l' : list B)
  (k : nat) (a : A) :
  Forall2 R l l' -> nth_error l k = Some a ->
  exists b, nth_error l' k = Some b /\ R a b.
Proof.
  intro H. revert k. induction H as [|x y l l' Hxy _ IH]; intros k Hk.
  - destruct k; discriminate Hk.
  - destruct k as [|k]; cbn [nth_error] in *.
    + injection Hk as <-. now exists y.
    + now apply IH.
Qed.

Lemma Forall2_inl {A B} (f : B -> exc (A + cell)) (l : list B) (r : list A) :
  Forall2 (fun b a => f b = Return a) l (map inl r) ->
  Forall2 (fun b a => f b = Return (inl a)) l r.
Proof.
  revert r. induction l as [|b l IH]; intros [|a r] H; inversion H; subst;
    constructor; auto.
Qed.

Lemma Return_inl_inj {A B} (a b : A) :
  Return (@inl A B a) = Return (inl b) -> a = b.
Proof. intro H. now injection H. Qed.

Section ForecastProperties.
Context {NP : Numpy} {SK : Sklearn} {PF : PyFloat}.

Lemma len_frame_of (historical_data : list Row.t) :
  len (frame_of historical_data) = length historical_data.
Proof. unfold len, frame_of, years_of. simpl. apply length_map. Qed.

Lemma length_amounts_of (historical_data : list Row.t) :
  length (amounts_of historical_data) = length historical_data.
Proof. apply length_map. Qed.

(** With two observations or more, the handler answers what the loop
    and the accuracy dictionary build: 500 when a step raises, the
    result when every point is finite. *)
Lemma generate_forecast_cases (request : ForecastRequest.t)
  (historical_data : list Row.t) :
  (2 <= length historical_data)%nat ->
  generate_forecast request historical_data =
  match collect (map (point_at request historical_data)
                     (py_range 1 (ForecastRequest.years request + 1)))
  with
  | Raise =>
      HTTPException 500 ("Error generating forecast: " ++ overflow_message)
  | Return points =>
      match all_finite points with
      | Some predictions =>
          Success
            {| ForecastResult.country := ForecastRequest.country request;
               ForecastResult.sector := ForecastRequest.sector request;
               ForecastResult.predictions := predictions;
               ForecastResult.accuracy :=
                 accuracy_dict (ForecastRequest.model request)
                   (use_ml (training request historical_data))
                   (model_accuracy (training request historical_data));
               ForecastResult.featureImportance := feature_importance |}
      | None => NonFinite
      end
  end.
Proof.
  intro H.
  destruct historical_data as [|r1 [|r2 t]]; simpl in H; try lia.
  unfold generate_forecast, point_at, training, frame_of, years_of, amounts_of.
  set (hd := r1 :: r2 :: t).
  replace (length (map (fun row => float_or_0 (Row.total_aid row)) hd) <? 2)%nat
    with false by (symmetry; apply Nat.ltb_ge; rewrite length_map; simpl; lia).
  destruct (select_model _ _) as [model expected_accuracy].
  reflexivity.
Qed.

Lemma success_has_two_points (request : ForecastRequest.t)
  (historical_data : list Row.t) (res : ForecastResult.t) :
  generate_forecast request historical_data = Success res ->
  (2 <= length historical_data)%nat.
Proof.
  destruct historical_data as [|r1 [|r2 t]]; cbn [length]; try lia;
    intro H; discriminate H.
Qed.

(** A returned forecast holds the points of the steps, in order, and
    the accuracy dictionary of the training state. *)
Lemma success_steps (request : ForecastRequest.t)
  (historical_data : list Row.t) (res : ForecastResult.t) :
  generate_forecast request historical_data = Success res ->
  Forall2 (fun i p => point_at request historical_data i = Return (inl p))
          (py_range 1 (ForecastRequest.years request + 1))
          (ForecastResult.predictions res) /\
  ForecastResult.accuracy res
  = accuracy_dict (ForecastRequest.model request)
      (use_ml (training request historical_data))
      (model_accuracy (training request historical_data)).
Proof.
  intro H. pose proof (success_has_two_points _ _ _ H) as Hlen.
  rewrite (generate_forecast_cases request historical_data Hlen) in H.
  destruct (collect _) as [points|] eqn:Ec; [|discriminate H].
  destruct (all_finite points) as [predictions|] eqn:Ea; [|discriminate H].
  injection H as <-. cbn [ForecastResult.predictions ForecastResult.accuracy].
  split; [|reflexivity].
  apply all_finite_inv in Ea. subst points.
  apply Forall2_inl. now apply collect_inv.
Qed.

Lemma success_length (request : ForecastRequest.t)
  (historical_data : list Row.t) (res : ForecastResult.t) :
  generate_forecast request historical_data = Success res ->
  length (ForecastResult.predictions res)
  = Z.to_nat (ForecastRequest.years request).
Proof.
  intro H. destruct (success_steps _ _ _ H) as [Hs _].
  apply Forall2_length in Hs. rewrite <- Hs, py_range_length. f_equal. lia.
Qed.

Lemma success_nth (request : ForecastRequest.t)
  (historical_data : list Row.t) (res : ForecastResult.t) (i : Z) :
  generate_forecast request historical_data = Success res ->
  (1 <= i <= ForecastRequest.years request)%Z ->
  exists p,
    nth_error (ForecastResult.predictions res) (Z.to_nat (i - 1)) = Some p /\
    point_at request historical_data i = Return (inl p).
Proof.
  intros H Hi. destruct (success_steps _ _ _ H) as [Hs _].
  apply (Forall2_nth _ _ _ (Z.to_nat (i - 1)) i Hs).
  rewrite py_range_nth by lia. f_equal. lia.
Qed.

(** When every step gives a finite point, the forecast is returned. *)
Lemma finite_steps_success (request : ForecastRequest.t)
  (historical_data : list Row.t) :
  (2 <= length historical_data)%nat ->
  (forall i, (1 <= i <= ForecastRequest.years request)%Z ->
             exists p, point_at request historical_data i = Return (inl p)) ->
  exists res, generate_forecast request historical_data = Success res.
Proof.
  intros Hlen Hsteps.
  rewrite (generate_forecast_cases request historical_data Hlen).
  assert (E : exists r,
             collect (map (point_at request historical_data)
                          (py_range 1 (ForecastRequest.years request + 1)))
             = Return (map inl r)).
  { assert (Hin : forall i,
               In i (py_range 1 (ForecastRequest.years request + 1)) ->
               exists p, point_at request historical_data i = Return (inl p)).
    { intros i Hi. apply py_range_In in Hi. apply Hsteps. lia. }
    induction (py_range 1 (ForecastRequest.years request + 1)) as [|i l IH].
    - exists []. reflexivity.
    - destruct (Hin i (or_introl eq_refl)) as [p Ep].
      destruct IH as [r Er]; [intros j Hj; apply Hin; now right|].
      exists (p :: r). cbn [map collect]. now rewrite Ep, Er. }
  destruct E as [r ->]. rewrite all_finite_inl. eexists. reflexivity.
Qed.

Lemma point_at_year (request : ForecastRequest.t)
  (historical_data : list Row.t) (i : Z) (p : PredictionPoint.t) :
  point_at request historical_data i = Return (inl p) ->
  PredictionPoint.year p = (py_max_list (years_of historical_data) + i)%Z.
Proof.
  unfold point_at, forecast_step.
  destruct (match use_ml _, fitted _ with
            | true, Some m => _ | _, _ => _ end) as [[[pr v]|c]|];
    cbn [bind]; intro H; try discriminate H.
  injection H as <-. reflexivity.
Qed.

(** ** The training state *)

Lemma training_small (request : ForecastRequest.t)
  (historical_data : list Row.t) :
  (length historical_data < 3)%nat ->
  training request historical_data
  = {| use_ml := false; model_accuracy := 80.0; fitted := None |}.
Proof.
  intro H. unfold training, train. rewrite len_frame_of.
  replace (3 <=? length historical_data)%nat with false; [reflexivity|].
  symmetry. apply Nat.leb_gt. exact H.
Qed.

Lemma training_failed (request : ForecastRequest.t)
  (historical_data : list Row.t) :
  let df := frame_of historical_data in
  let selected := select_model (ForecastRequest.model request) (len df) in
  (3 <= length historical_data)%nat ->
  fit_and_score (fst selected) (snd selected) df = Raise ->
  training request historical_data
  = {| use_ml := false; model_accuracy := 75.0; fitted := None |}.
Proof.
  intros df selected H E. unfold training, train. fold df selected.
  unfold df at 1. rewrite len_frame_of.
  replace (3 <=? length historical_data)%nat with true
    by (symmetry; apply Nat.leb_le; exact H).
  now rewrite E.
Qed.

Lemma training_fitted (request : ForecastRequest.t)
  (historical_data : list Row.t) (m : Fitted) (acc : Q) :
  let df := frame_of historical_data in
  let selected := select_model (ForecastRequest.model request) (len df) in
  (3 <= length historical_data)%nat ->
  fit_and_score (fst selected) (snd selected) df = Return (m, acc) ->
  training request historical_data
  = {| use_ml := true; model_accuracy := acc; fitted := Some m |}.
Proof.
  intros df selected H E. unfold training, train. fold df selected.
  unfold df at 1. rewrite len_frame_of.
  replace (3 <=? length historical_data)%nat with true
    by (symmetry; apply Nat.leb_le; exact H).
  now rewrite E.
Qed.

(** A model is only used on a series of three observations or more. *)
Lemma use_ml_length (request : ForecastRequest.t)
  (historical_data : list Row.t) :
  use_ml (training request historical_data) = true ->
  (3 <= length historical_data)%nat.
Proof.
  unfold training, train. rewrite len_frame_of.
  destruct (3 <=? length historical_data)%nat eqn:E.
  - intros _. now apply Nat.leb_le.
  - simpl. discriminate.
Qed.

(** A model in use is a fitted one. *)
Lemma use_ml_fitted (request : ForecastRequest.t)
  (historical_data : list Row.t) :
  use_ml (training request historical_data) = true ->
  exists m, fitted (training request historical_data) = Some m.
Proof.
  unfold training, train.
  destruct (3 <=? len (frame_of historical_data))%nat; [|discriminate].
  destruct (fit_and_score _ _ _) as [[m acc]|]; [|discriminate].
  intros _. now exists m.
Qed.

(** ** The trend path *)

(** Without a model, every step is the trend step. *)
Lemma point_at_trend (request : ForecastRequest.t)
  (historical_data : list Row.t) (i : Z) :
  use_ml (training request historical_data) = false ->
  let amounts := amounts_of historical_data in
  point_at request historical_data i
  = match trend_value (last amounts 0) (avg_annual_change amounts) i with
    | Raise => Raise
    | Return (Num t) =>
        Return (inl (make_point (py_max_list (years_of historical_data) + i)
                                t (Qabs t * 0.20)))
    | Return c => Return (inr c)
    end.
Proof.
  intros H amounts. unfold point_at, forecast_step. rewrite H.
  fold amounts. unfold trend_step.
  destruct (trend_value _ _ _) as [[t| |b]|]; reflexivity.
Qed.

(** On non-negative amounts the trend value is the geometric trend of
    the specification, as floats evaluate it. *)
Lemma trend_value_geometric (base_amount avg : Q) (i : Z) :
  0 <= base_amount ->
  trend_value base_amount avg i = float_geometric_trend base_amount avg i.
Proof.
  intro H. unfold trend_value, float_geometric_trend.
  destruct (Qltb 0 base_amount) eqn:E.
  - apply Qltb_lt in E.
    destruct (Qeq_bool base_amount 0) eqn:E0; [|reflexivity].
    apply Qeq_bool_iff in E0. rewrite E0 in E.
    exfalso. exact (Qlt_irrefl _ E).
  - apply Qltb_ge in E.
    assert (Hz : base_amount == 0) by (apply Qle_antisym; assumption).
    apply Qeq_bool_iff in Hz. now rewrite Hz.
Qed.

Lemma last_Forall {A} (P : A -> Prop) (l : list A) (d : A) :
  P d -> Forall P l -> P (last l d).
Proof.
  intros Hd H. induction H as [|x l Hx Hl IH]; [exact Hd|].
  destruct l; [exact Hx|exact IH].
Qed.

Lemma method_accuracy_dict_trend (model : string) (acc : Q) :
  method (accuracy_dict model false acc) = "Trend Analysis"%string.
Proof.
  unfold accuracy_dict.
  destruct (model =? "prophet")%string; [reflexivity|].
  destruct (model =? "xgboost")%string; reflexivity.
Qed.

Lemma confidence_accuracy_dict (model : string) (b : bool) (acc : Q) :
  confidence (accuracy_dict model b acc) = acc.
Proof.
  unfold accuracy_dict.
  destruct (model =? "prophet")%string; [reflexivity|].
  destruct (model =? "xgboost")%string; reflexivity.
Qed.

(** Without a model the forecast is returned as soon as the trend value
    of every step is a finite float. *)
Lemma finite_trend_success (request : ForecastRequest.t)
  (historical_data : list Row.t) :
  let amounts := amounts_of historical_data in
  (2 <= length historical_data)%nat ->
  use_ml (training request historical_data) = false ->
  (forall i, (1 <= i <= ForecastRequest.years request)%Z ->
             exists t, trend_value (last amounts 0) (avg_annual_change amounts) i
                       = Return (Num t)) ->
  exists res, generate_forecast request historical_data = Success res.
Proof.
  intros amounts Hlen Hu Ht. apply finite_steps_success; [exact Hlen|].
  intros i Hi. destruct (Ht i Hi) as [t Et].
  rewrite (point_at_trend _ _ i Hu). fold amounts. rewrite Et.
  eexists. reflexivity.
Qed.

(** ** The trained-model path *)

Lemma point_at_ml (request : ForecastRequest.t) (historical_data : list Row.t)
  (m : Fitted) (i : Z) (raw : Q) (rest : list Q) :
  let st := training request historical_data in
  let adjusted := adjust (amounts_of historical_data) (model_accuracy st) i raw in
  use_ml st = true ->
  fitted st = Some m ->
  predict m [new_features (frame_of historical_data) i] = Return (raw :: rest) ->
  point_at request historical_data i
  = Return (inl (make_point (py_max_list (years_of historical_data) + i)
                            (fst adjusted) (snd adjusted))).
Proof.
  intros st adjusted Hu Hf Hp. unfold point_at, forecast_step.
  fold st. rewrite Hu, Hf. unfold ml_step. rewrite Hp. cbn [bind].
  fold adjusted. now destruct adjusted.
Qed.

Lemma point_at_except (request : ForecastRequest.t)
  (historical_data : list Row.t) (m : Fitted) (i : Z) :
  let st := training request historical_data in
  let amounts := amounts_of historical_data in
  let pv := except_step (last amounts 0) (avg_annual_change amounts) i in
  use_ml st = true ->
  fitted st = Some m ->
  predict m [new_features (frame_of historical_data) i] = Raise ->
  point_at request historical_data i
  = Return (inl (make_point (py_max_list (years_of historical_data) + i)
                            (fst pv) (snd pv))).
Proof.
  intros st amounts pv Hu Hf Hp. unfold point_at, forecast_step.
  fold st. rewrite Hu, Hf. unfold ml_step. rewrite Hp. cbn [bind].
  fold amounts. fold pv. now destruct pv.
Qed.

(** With a model in use no step raises, and every point is finite: the
    inner [try] covers the whole of the model branch. *)
Lemma model_step_finite (request : ForecastRequest.t)
  (historical_data : list Row.t) (i : Z) :
  use_ml (training request historical_data) = true ->
  exists p, point_at request historical_data i = Return (inl p).
Proof.
  intro Hu. destruct (use_ml_fitted _ _ Hu) as [m Hf].
  unfold point_at, forecast_step. rewrite Hu, Hf.
  destruct (ml_step _ _ _ _ _) as [[p v]|]; cbn [bind].
  - eexists. reflexivity.
  - destruct (except_step _ _ _) as [p v]. eexists. reflexivity.
Qed.

Lemma model_path_success (request : ForecastRequest.t)
  (historical_data : list Row.t) :
  use_ml (training request historical_data) = true ->
  exists res, generate_forecast request historical_data = Success res.
Proof.
  intro Hu. pose proof (use_ml_length _ _ Hu) as H3.
  apply finite_steps_success; [lia|].
  intros i _. now apply model_step_finite.
Qed.

(** The handler answers with an error status on a short series, with
    404 or 400, and on a longer one, with 500, only when the power of a
    trend step raised. *)
Lemma error_of_long_series (request : ForecastRequest.t)
  (historical_data : list Row.t) (status : Z) (detail : string) :
  let amounts := amounts_of historical_data in
  (2 <= length historical_data)%nat ->
  generate_forecast request historical_data = HTTPException status detail ->
  status = 500%Z /\
  use_ml (training request historical_data) = false /\
  exists i, (1 <= i <= ForecastRequest.years request)%Z /\
            trend_value (last amounts 0) (avg_annual_change amounts) i = Raise.
Proof.
  intros amounts Hlen H.
  rewrite (generate_forecast_cases request historical_data Hlen) in H.
  destruct (collect _) as [points|] eqn:Ec.
  { destruct (all_finite points); discriminate H. }
  injection H as <- _. split; [reflexivity|].
  apply collect_raise, Exists_exists in Ec. destruct Ec as [i [Hin Ei]].
  apply py_range_In in Hin.
  destruct (use_ml (training request historical_data)) eqn:Hu.
  - destruct (model_step_finite request historical_data i Hu) as [p Ep].
    congruence.
  - split; [reflexivity|]. exists i. split; [lia|].
    rewrite (point_at_trend _ _ i Hu) in Ei. fold amounts in Ei.
    destruct (trend_value _ _ _) as [[t| |b]|]; [discriminate Ei..|reflexivity].
Qed.

Lemma overflow_gives_500 (request : ForecastRequest.t)
  (historical_data : list Row.t) (i : Z) :
  let amounts := amounts_of historical_data in
  (2 <= length historical_data)%nat ->
  use_ml (training request historical_data) = false ->
  (1 <= i <= ForecastRequest.years request)%Z ->
  trend_value (last amounts 0) (avg_annual_change amounts) i = Raise ->
  generate_forecast request historical_data
  = HTTPException 500 ("Error generating forecast: " ++ overflow_message).
Proof.
  intros amounts Hlen Hu Hi Et.
  rewrite (generate_forecast_cases request historical_data Hlen).
  assert (Ec : collect (map (point_at request historical_data)
                            (py_range 1 (ForecastRequest.years request + 1)))
               = Raise).
  { apply collect_raise, Exists_exists. exists i. split.
    - apply py_range_In. lia.
    - rewrite (point_at_trend _ _ i Hu). fold amounts. now rewrite Et. }
  now rewrite Ec.
Qed.

(** ** The years of a forecast *)

(** C2, as the code has it: with two observations or more and a
    positive horizon [years], a forecast that is returned holds exactly
    [years] points, and the point at position [k] carries the year
    [last_year + 1 + k], where [last_year] is the greatest observed
    year: the years are consecutive, strictly increasing, and start the
    year after the last observed one.  The forecast is returned
    whenever a model is in use, and without a model as soon as the
    trend value of every step is a finite float; the only error answer
    is then 500, given when the power of line 272 raises at a step of
    the trend path. *)
Theorem forecast_years_consecutive (request : ForecastRequest.t)
  (historical_data : list Row.t) :
  let amounts := amounts_of historical_data in
  let st := training request historical_data in
  (2 <= length historical_data)%nat ->
  (0 < ForecastRequest.years request)%Z ->
  exists last_year : Z,
    In last_year (years_of historical_data) /\
    (forall y, In y (years_of historical_data) -> (y <= last_year)%Z) /\
    (forall res,
       generate_forecast request historical_data = Success res ->
       Z.of_nat (length (ForecastResult.predictions res))
         = ForecastRequest.years request /\
       forall k : nat,
         (Z.of_nat k < ForecastRequest.years request)%Z ->
         nth_error (map PredictionPoint.year (ForecastResult.predictions res)) k
         = Some (last_year + 1 + Z.of_nat k)%Z) /\
    (use_ml st = true ->
     exists res, generate_forecast request historical_data = Success res) /\
    ((forall i, (1 <= i <= ForecastRequest.years request)%Z ->
                exists t,
                  trend_value (last amounts 0) (avg_annual_change amounts) i
                  = Return (Num t)) ->
     exists res, generate_forecast request historical_data = Success res) /\
    (forall status detail,
       generate_forecast request historical_data = HTTPException status detail ->
       status = 500%Z /\ use_ml st = false /\
       exists i, (1 <= i <= ForecastRequest.years request)%Z /\
                 trend_value (last amounts 0) (avg_annual_change amounts) i
                 = Raise).
Proof.
  intros amounts st Hlen Hy.
  assert (Hne : years_of historical_data <> []).
  { destruct historical_data; [cbn in Hlen; lia | discriminate]. }
  destruct (py_max_list_spec _ Hne) as [Hin Hmax].
  exists (py_max_list (years_of historical_data)).
  split; [exact Hin|]. split; [exact Hmax|]. split; [|split; [|split]].
  - intros res H. split.
    + rewrite (success_length _ _ _ H). lia.
    + intros k Hk. rewrite nth_error_map.
      destruct (success_nth _ _ _ (1 + Z.of_nat k) H) as [p [Hn Hp]]; [lia|].
      replace (Z.to_nat (1 + Z.of_nat k - 1)) with k in Hn by lia.
      rewrite Hn. cbn [option_map]. rewrite (point_at_year _ _ _ _ Hp).
      f_equal. lia.
  - apply model_path_success.
  - intro Ht. destruct (use_ml st) eqn:Hu.
    + now apply model_path_success.
    + now apply finite_trend_success.
  - intros status detail H.
    exact (error_of_long_series request historical_data status detail Hlen H).
Qed.


(** The same path is taken, with accuracy 75.0, when training was
    attempted and raised. *)
Lemma trend_fallback_failed_fit (request : ForecastRequest.t)
  (historical_data : list Row.t) (i : Z) :
  let df := frame_of historical_data in
  let selected := select_model (ForecastRequest.model request) (len df) in
  let amounts := amounts_of historical_data in
  (3 <= length historical_data)%nat ->
  fit_and_score (fst selected) (snd selected) df = Raise ->
  model_accuracy (training request historical_data) = 75.0 /\
  point_at request historical_data i
  = match trend_value (last amounts 0) (avg_annual_change amounts) i with
    | Raise => Raise
    | Return (Num t) =>
        Return (inl (make_point (py_max_list (years_of historical_data) + i)
                                t (Qabs t * 0.20)))
    | Return c => Return (inr c)
    end.
Proof.
  intros df selected amounts H E.
  pose proof (training_failed request historical_data H E) as Ht.
  split; [now rewrite Ht|].
  apply point_at_trend. now rewrite Ht.
Qed.

(** ** Model selection and accuracy *)

Lemma select_model_cases (model : string) (n : nat) :
  select_model model n =
  if (n <? 5)%nat then (RandomForestRegressor 100 42, 86.5)
  else configuration_of model.
Proof.
  unfold select_model, configuration_of.
  destruct (n <? 5)%nat; [now rewrite orb_true_r|].
  rewrite orb_false_r.
  destruct (model =? "prophet")%string; reflexivity.
Qed.

(** C4, as the code has it: the data size comes first.  A series of
    fewer than five points always gets the averaging ensemble of 100
    trees with ceiling 86.5; from five points on the identifier alone
    chooses: "prophet" the ensemble of 100 trees (86.5), "xgboost" the
    boosted regressor with 100 stages and learning rate 0.1 (89.2), and
    "hybrid" or any other identifier the boosted regressor with 150
    stages, depth 4 and learning rate 0.08 (91.8). *)
Theorem select_model_by_size_then_name (model : string) (n : nat) :
  ((n < 5)%nat ->
   select_model model n = (RandomForestRegressor 100 42, 86.5)) /\
  ((5 <= n)%nat ->
   select_model model n = configuration_of model /\
   select_model "prophet" n = (RandomForestRegressor 100 42, 86.5) /\
   select_model "xgboost" n
     = (GradientBoostingRegressor 100 0.1 None 42, 89.2) /\
   select_model "hybrid" n
     = (GradientBoostingRegressor 150 0.08 (Some 4%Z) 42, 91.8) /\
   (model <> "prophet"%string -> model <> "xgboost"%string ->
    select_model model n = select_model "hybrid" n)).
Proof.
  split; intro H.
  - rewrite select_model_cases.
    apply Nat.ltb_lt in H. now rewrite H.
  - assert (E : (n <? 5)%nat = false) by (apply Nat.ltb_ge; exact H).
    rewrite !select_model_cases, E. repeat split.
    intros Hp Hx. unfold configuration_of.
    apply String.eqb_neq in Hp. apply String.eqb_neq in Hx.
    now rewrite Hp, Hx.
Qed.

Lemma expected_ceiling_ge (model : string) : 86.5 <= expected_ceiling model.
Proof.
  unfold expected_ceiling, configuration_of.
  destruct (model =? "prophet")%string; [cbn; lra|].
  destruct (model =? "xgboost")%string; cbn; lra.
Qed.

Lemma select_model_ceiling (model : string) (n : nat) :
  snd (select_model model n)
  = if (n <? 5)%nat then 86.5 else expected_ceiling model.
Proof.
  rewrite select_model_cases. now destruct (n <? 5)%nat.
Qed.

Lemma select_model_ceiling_bounds (model : string) (n : nat) :
  86.5 <= snd (select_model model n) <= expected_ceiling model.
Proof.
  rewrite select_model_ceiling. pose proof (expected_ceiling_ge model).
  destruct (n <? 5)%nat; split; lra.
Qed.

Lemma accuracy_of_r2_bounds (e : Q) (r2 : option Q) :
  75 <= e -> 75 <= accuracy_of_r2 e r2 <= e.
Proof.
  intro He. unfold accuracy_of_r2, py_max, py_min.
  destruct r2 as [r|]; case_Qltb; split; lra.
Qed.

Lemma accuracy_of_r2_clamp (e r : Q) :
  75 <= e -> accuracy_of_r2 e (Some r) == clamp (r * 100) 75.0 e.
Proof.
  intro He. unfold accuracy_of_r2, clamp, py_max, py_min.
  case_Qltb; lra.
Qed.

Lemma accuracy_of_r2_nan (e : Q) : 75 <= e -> accuracy_of_r2 e None == e.
Proof.
  intro He. unfold accuracy_of_r2, py_max. case_Qltb; lra.
Qed.

Lemma training_accuracy_bounds (request : ForecastRequest.t)
  (historical_data : list Row.t) :
  75 <= model_accuracy (training request historical_data)
     <= expected_ceiling (ForecastRequest.model request).
Proof.
  unfold training, train.
  set (df := frame_of historical_data).
  set (selected := select_model _ _).
  pose proof (select_model_ceiling_bounds
                (ForecastRequest.model request) (len df)) as Hs.
  fold selected in Hs.
  destruct (3 <=? len df)%nat; [|cbn; lra].
  unfold fit_and_score.
  destruct (fit _ _ _) as [m|]; [|cbn; lra].
  cbn [bind]. destruct (predict _ _) as [preds|]; [|cbn; lra].
  cbn [bind]. destruct (r2_score _ _) as [r2|]; [|cbn; lra].
  cbn [bind model_accuracy].
  pose proof (accuracy_of_r2_bounds (snd selected) r2) as Hb. lra.
Qed.

(** C5, as the code has it: the ceiling is that of the configuration
    selected, which is 86.5 for every identifier while the series has
    fewer than five points.  After a successful fit with in-sample
    score [r2] the forecast is returned, and the accuracy it reports is
    [clamp(r2 * 100, 75.0, ceiling selected)], or that ceiling itself
    when the score is nan; in every forecast returned it lies between
    75.0 and the ceiling of the requested model. *)
Theorem accuracy_clamped_to_selected_ceiling (request : ForecastRequest.t)
  (historical_data : list Row.t) :
  (2 <= length historical_data)%nat ->
  (forall res,
     generate_forecast request historical_data = Success res ->
     75.0 <= confidence (ForecastResult.accuracy res)
          <= expected_ceiling (ForecastRequest.model request)) /\
  forall (m : Fitted) (train_predictions : list Q) (r2 : option Q),
    let df := frame_of historical_data in
    let selected := select_model (ForecastRequest.model request) (len df) in
    let ceiling :=
      if (length historical_data <? 5)%nat then 86.5
      else expected_ceiling (ForecastRequest.model request) in
    (3 <= length historical_data)%nat ->
    fit (fst selected) (X_train df) (y_train df) = Return m ->
    predict m (X_train df) = Return train_predictions ->
    r2_score (y_train df) train_predictions = Return r2 ->
    exists res,
      generate_forecast request historical_data = Success res /\
      confidence (ForecastResult.accuracy res)
      == match r2 with
         | Some r => clamp (r * 100) 75.0 ceiling
         | None => ceiling
         end.
Proof.
  intro Hlen. split.
  - intros res H. destruct (success_steps _ _ _ H) as [_ Ha].
    rewrite Ha, confidence_accuracy_dict.
    pose proof (training_accuracy_bounds request historical_data). lra.
  - intros m preds r2 df selected ceiling H3 Hfit Hpred Hr2.
    assert (E : fit_and_score (fst selected) (snd selected) df
                = Return (m, accuracy_of_r2 (snd selected) r2)).
    { unfold fit_and_score. rewrite Hfit. cbn [bind].
      rewrite Hpred. cbn [bind]. now rewrite Hr2. }
    pose proof (training_fitted request historical_data _ _ H3 E) as Ht.
    destruct (model_path_success request historical_data) as [res H];
      [rewrite Ht; reflexivity|].
    exists res. split; [exact H|].
    destruct (success_steps _ _ _ H) as [_ Ha].
    rewrite Ha, confidence_accuracy_dict, Ht. cbn [model_accuracy].
    pose proof (select_model_ceiling_bounds
                  (ForecastRequest.model request) (len df)) as Hs.
    fold selected in Hs.
    assert (Hc : snd selected = ceiling).
    { unfold selected, ceiling. rewrite select_model_ceiling.
      unfold df. now rewrite len_frame_of. }
    rewrite <- Hc. destruct r2 as [r|].
    + apply accuracy_of_r2_clamp. lra.
    + apply accuracy_of_r2_nan. lra.
Qed.

(** C10: in every forecast returned, the [confidence] entry and the
    entry of the requested model (any identifier other than "prophet"
    and "xgboost" counts as "hybrid") carry the computed model
    accuracy; the two other entries are constants: 86.5 / 89.2 / 91.8
    when a model was trained, 82.1 / 84.5 / 88.1 otherwise. *)
Theorem accuracy_map_entries (request : ForecastRequest.t)
  (historical_data : list Row.t) (res : ForecastResult.t) :
  generate_forecast request historical_data = Success res ->
  let a := ForecastResult.accuracy res in
  let st := training request historical_data in
  let model := ForecastRequest.model request in
  confidence a = model_accuracy st /\
  (model = "prophet"%string ->
     prophet a = model_accuracy st /\
     xgboost a = (if use_ml st then 89.2 else 84.5) /\
     hybrid a = (if use_ml st then 91.8 else 88.1)) /\
  (model = "xgboost"%string ->
     xgboost a = model_accuracy st /\
     prophet a = (if use_ml st then 86.5 else 82.1) /\
     hybrid a = (if use_ml st then 91.8 else 88.1)) /\
  (model <> "prophet"%string -> model <> "xgboost"%string ->
     hybrid a = model_accuracy st /\
     prophet a = (if use_ml st then 86.5 else 82.1) /\
     xgboost a = (if use_ml st then 89.2 else 84.5)).
Proof.
  intro H. destruct (success_steps _ _ _ H) as [_ Ha].
  cbv zeta. rewrite Ha.
  split; [apply confidence_accuracy_dict|].
  unfold accuracy_dict. split; [|split].
  - intros ->. repeat split.
  - intros ->. repeat split.
  - intros Hp Hx.
    apply String.eqb_neq in Hp. apply String.eqb_neq in Hx.
    rewrite Hp, Hx. repeat split.
Qed.

(** ** Error surfaces *)

(** C8, as the code has it: the empty series is answered with 404 and
    the series of one point with 400, and with them only.  With two
    points or more the handler returns a forecast with one point per
    requested year whenever a model is in use, and without a model as
    soon as the trend value of every step is a finite float; it answers
    500, its only other error status, exactly when no model is in use
    and the power of line 272 raises at one of the steps. *)
Theorem generate_forecast_errors (request : ForecastRequest.t)
  (historical_data : list Row.t) :
  let amounts := amounts_of historical_data in
  let st := training request historical_data in
  let trend := trend_value (last amounts 0) (avg_annual_change amounts) in
  ((exists detail,
      generate_forecast request historical_data = HTTPException 404 detail)
   <-> historical_data = []) /\
  ((exists detail,
      generate_forecast request historical_data = HTTPException 400 detail)
   <-> length historical_data = 1%nat) /\
  ((exists detail,
      generate_forecast request historical_data = HTTPException 500 detail)
   <-> (2 <= length historical_data)%nat /\ use_ml st = false /\
       exists i, (1 <= i <= ForecastRequest.years request)%Z /\
                 trend i = Raise) /\
  (forall status detail,
      generate_forecast request historical_data = HTTPException status detail ->
      status = 404%Z \/ status = 400%Z \/ status = 500%Z) /\
  ((2 <= length historical_data)%nat ->
   (use_ml st = true \/
    forall i, (1 <= i <= ForecastRequest.years request)%Z ->
              exists t, trend i = Return (Num t)) ->
   exists res,
     generate_forecast request historical_data = Success res /\
     length (ForecastResult.predictions res)
       = Z.to_nat (ForecastRequest.years request)).
Proof.
  destruct historical_data as [|r1 [|r2 t]]; intros amounts st trend.
  - split; [|split; [|split; [|split]]].
    + split; [reflexivity|]. intros _. eexists. reflexivity.
    + split; [intros [d H]; discriminate H | discriminate].
    + split; [intros [d H]; discriminate H | cbn; lia].
    + intros status detail H. injection H as <- _. now left.
    + cbn. lia.
  - split; [|split; [|split; [|split]]].
    + split; [intros [d H]; discriminate H | discriminate].
    + split; [reflexivity|]. intros _. eexists. reflexivity.
    + split; [intros [d H]; discriminate H | cbn; lia].
    + intros status detail H. injection H as <- _. right. now left.
    + cbn. lia.
  - set (historical_data := r1 :: r2 :: t) in *.
    assert (Hlen : (2 <= length historical_data)%nat) by (cbn; lia).
    split; [|split; [|split; [|split]]].
    + split; [|discriminate]. intros [d H].
      destruct (error_of_long_series request historical_data _ _ Hlen H)
        as [E _]. discriminate E.
    + split; [|cbn; lia]. intros [d H].
      destruct (error_of_long_series request historical_data _ _ Hlen H)
        as [E _]. discriminate E.
    + split.
      * intros [d H].
        destruct (error_of_long_series request historical_data _ _ Hlen H)
          as [_ [Hu Hi]].
        split; [exact Hlen|]. split; [exact Hu | exact Hi].
      * intros [_ [Hu [i [Hi Et]]]]. eexists.
        exact (overflow_gives_500 request historical_data i Hlen Hu Hi Et).
    + intros status detail H.
      destruct (error_of_long_series request historical_data _ _ Hlen H)
        as [E _]. right. now right.
    + intros _ Hok.
      assert (E : exists res,
                 generate_forecast request historical_data = Success res).
      { destruct (use_ml st) eqn:Hu.
        - now apply model_path_success.
        - destruct Hok as [Hok|Hok]; [discriminate Hok|].
          now apply finite_trend_success. }
      destruct E as [res H]. exists res. split; [exact H|].
      exact (success_length _ _ _ H).
Qed.

(** ** The corrections of the model output *)

Lemma recent_trend_last_3 (amounts : list Q) :
  (3 <= length amounts)%nat ->
  recent_trend amounts = np_mean (np_diff (py_tail 3 amounts)).
Proof.
  intro H. unfold recent_trend.
  replace (3 <=? length amounts)%nat with true; [reflexivity|].
  symmetry. now apply Nat.leb_le.
Qed.

(** Beyond the first step the raw output only gets the drift. *)
Lemma adjust_later_step (amounts : list Q) (acc : Q) (i : Z) (raw : Q) :
  (1 < i)%Z ->
  fst (adjust amounts acc i raw)
  = raw + avg_annual_change amounts * 0.5 * inject_Z i.
Proof.
  intro H. unfold adjust. cbn [fst].
  replace (i =? 1)%Z with false by (symmetry; apply Z.eqb_neq; lia).
  replace (1 <? i)%Z with true by (symmetry; apply Z.ltb_lt; lia).
  reflexivity.
Qed.



(** ** Explanations *)

Lemma to_historical_total (rows : list Row.t) :
  Forall (fun r => Row.total_aid r <> None) rows ->
  exists h, to_historical rows = Return h /\
            map snd h = amounts_of rows /\ length h = length rows.
Proof.
  induction 1 as [|r rows Hr _ IH].
  - exists []. repeat split.
  - destruct IH as [h [Eh [Hs Hl]]]. cbn [to_historical].
    destruct (Row.total_aid r) as [q|] eqn:E; [|congruence].
    rewrite Eh. cbn [bind]. eexists. split; [reflexivity|].
    cbn. rewrite E, Hs, Hl. repeat split.
Qed.

Lemma usable_history_total (rows : list Row.t) :
  rows <> [] ->
  Forall (fun r => Row.total_aid r <> None) rows ->
  usable_history (Return rows) <> [] /\
  map snd (usable_history (Return rows)) = amounts_of rows.
Proof.
  intros Hne Hnull. destruct (to_historical_total rows Hnull) as [h [Eh [Hs Hl]]].
  unfold usable_history. cbn [bind]. rewrite Eh. split; [|exact Hs].
  destruct h; [|discriminate]. destruct rows; [congruence|discriminate Hl].
Qed.

Lemma last_cons_default {A} (l : list A) (x y : A) :
  last (y :: l) x = last l y.
Proof.
  revert x y. induction l as [|z l IH]; intros x y; [reflexivity|].
  change (last (y :: z :: l) x) with (last (z :: l) x).
  rewrite (IH x z). symmetry. apply IH.
Qed.

Lemma nth_error_last {A} (l : list A) (x : A) :
  nth_error (x :: l) (length l) = Some (last l x).
Proof.
  revert x. induction l as [|y l IH]; intro x; [reflexivity|].
  cbn [length nth_error]. rewrite IH. f_equal.
  symmetry. apply last_cons_default.
Qed.

(** The handler after a nested forecast that was returned (lines
    448-453). *)
Lemma shap_after_forecast (request : SHAPRequest.t)
  (shap_query : exc (list Row.t)) (forecast_rows : list Row.t)
  (forecast_result : ForecastResult.t) :
  generate_forecast (to_forecast_request request) forecast_rows
    = Success forecast_result ->
  generate_shap_explanations request shap_query forecast_rows
  = Success
      {| SHAPResult.explanations :=
           explanations_for (SHAPRequest.years request);
         SHAPResult.model_prediction :=
           match ForecastResult.predictions forecast_result with
           | [] => 25000
           | p :: t => PredictionPoint.predicted (last t p)
           end;
         SHAPResult.base_value :=
           np_mean match usable_history shap_query with
                   | [] => [25000]
                   | _ :: _ => map snd (usable_history shap_query)
                   end;
         SHAPResult.country := SHAPRequest.country request;
         SHAPResult.sector := SHAPRequest.sector request |}.
Proof.
  intro E. unfold generate_shap_explanations. rewrite E. reflexivity.
Qed.

Lemma explanations_for_buckets (years : Z) :
  ((years <= 3)%Z -> explanations_for years = short_term_explanations) /\
  ((4 <= years <= 5)%Z -> explanations_for years = medium_term_explanations) /\
  ((5 < years)%Z -> explanations_for years = long_term_explanations).
Proof.
  unfold explanations_for. repeat split.
  - intro H. apply Z.leb_le in H. now rewrite H.
  - intros [H4 H5].
    replace (years <=? 3)%Z with false by (symmetry; apply Z.leb_gt; lia).
    apply Z.leb_le in H5. now rewrite H5.
  - intro H.
    replace (years <=? 3)%Z with false by (symmetry; apply Z.leb_gt; lia).
    replace (years <=? 5)%Z with false by (symmetry; apply Z.leb_gt; lia).
    reflexivity.
Qed.

(** C9, as the code has it: when the forecast nested in the handler,
    asked for the country, the sector, the model and the horizon of the
    explanation request, is returned for a positive horizon, the
    handler returns a result; its explanation list is the literal list
    of the horizon's bucket (at most 3 years, 4 to 5 years, more than 5
    years), and [model_prediction] is the predicted value of the
    forecast's last point.  [base_value] is the mean of the amounts
    that the handler's own query returned when that query gave a
    non-empty series without null totals; it is the constant 25000 when
    that query left nothing usable. *)
Theorem shap_consistent_with_forecast (request : SHAPRequest.t)
  (shap_query : exc (list Row.t)) (forecast_rows : list Row.t)
  (forecast_result : ForecastResult.t) :
  let years := SHAPRequest.years request in
  generate_forecast
    {| ForecastRequest.country := SHAPRequest.country request;
       ForecastRequest.sector := SHAPRequest.sector request;
       ForecastRequest.years := years;
       ForecastRequest.model := SHAPRequest.model request |}
    forecast_rows = Success forecast_result ->
  (0 < years)%Z ->
  exists res final,
    generate_shap_explanations request shap_query forecast_rows
      = Success res /\
    nth_error (ForecastResult.predictions forecast_result)
              (Z.to_nat (years - 1)) = Some final /\
    length (ForecastResult.predictions forecast_result) = Z.to_nat years /\
    SHAPResult.model_prediction res = PredictionPoint.predicted final /\
    (forall rows,
       shap_query = Return rows -> rows <> [] ->
       Forall (fun r => Row.total_aid r <> None) rows ->
       SHAPResult.base_value res = np_mean (amounts_of rows)) /\
    (usable_history shap_query = [] -> SHAPResult.base_value res == 25000) /\
    SHAPResult.explanations res = explanations_for years /\
    ((years <= 3)%Z ->
       SHAPResult.explanations res = short_term_explanations) /\
    ((4 <= years <= 5)%Z ->
       SHAPResult.explanations res = medium_term_explanations) /\
    ((5 < years)%Z ->
       SHAPResult.explanations res = long_term_explanations).
Proof.
  intros years E Hy.
  change {| ForecastRequest.country := SHAPRequest.country request;
            ForecastRequest.sector := SHAPRequest.sector request;
            ForecastRequest.years := years;
            ForecastRequest.model := SHAPRequest.model request |}
    with (to_forecast_request request) in E.
  pose proof (success_length _ _ _ E) as Hpl.
  change (ForecastRequest.years (to_forecast_request request))
    with years in Hpl.
  rewrite (shap_after_forecast request shap_query forecast_rows _ E).
  destruct (ForecastResult.predictions forecast_result) as [|p0 t] eqn:Ep;
    [cbn in Hpl; lia|].
  do 2 eexists. split; [reflexivity|].
  cbn [SHAPResult.model_prediction SHAPResult.base_value
       SHAPResult.explanations].
  split; [|split; [exact Hpl|split; [reflexivity|split; [|split]]]].
  - replace (Z.to_nat (years - 1)) with (length t)
      by (cbn [length] in Hpl; lia).
    apply nth_error_last.
  - intros rows -> Hne Hnull.
    destruct (usable_history_total rows Hne Hnull) as [Hu Hs].
    destruct (usable_history (Return rows)) as [|h0 h']; [congruence|].
    now rewrite Hs.
  - intros ->. reflexivity.
  - split; [reflexivity|]. apply explanations_for_buckets.
Qed.

End ForecastProperties.

(** ** The code on concrete series *)

(** On the series 1000, 1 the trend value of the first step is -498.5
    for every float arithmetic: each intermediate result, -999, -499.5,
    -498.5, is a float. *)
Lemma falling_trend_value (PF : PyFloat) :
  exists t,
    trend_value (last (amounts_of series_falling) 0)
                (avg_annual_change (amounts_of series_falling)) 1
    = Return (Num t) /\ t == -498.5.
Proof.
  change (last (amounts_of series_falling) 0) with (1 : Q).
  change (avg_annual_change (amounts_of series_falling)) with ((-999) # 1).
  unfold trend_value. change (Qltb 0 1) with true. cbv iota.
  destruct (py_div_exact ((-999) # 1) 1) as [q1 [E1 H1]];
    [discriminate | exists (-999)%Z, 0%nat; repeat split; try lia |].
  rewrite E1.
  destruct (py_mul_exact q1 0.5) as [q2 [E2 H2]].
  { exists (-999)%Z, 1%nat. split; [reflexivity|]. split; [lia|].
    rewrite H1. reflexivity. }
  rewrite E2.
  destruct (py_add_exact 1 q2) as [q3 [E3 H3]].
  { exists (-997)%Z, 1%nat. split; [reflexivity|]. split; [lia|].
    rewrite H2, H1. reflexivity. }
  rewrite E3.
  destruct (py_pow_one q3) as [q4 [E4 H4]].
  { exists (-997)%Z, 1%nat. split; [reflexivity|]. split; [lia|].
    rewrite H3, H2, H1. reflexivity. }
  rewrite E4. cbn [bind].
  destruct (py_mul_exact 1 q4) as [q5 [E5 H5]].
  { exists (-997)%Z, 1%nat. split; [reflexivity|]. split; [lia|].
    rewrite H4, H3, H2, H1. reflexivity. }
  rewrite E5. exists q5. split; [reflexivity|].
  rewrite H5, H4, H3, H2, H1. reflexivity.
Qed.

(** C1: the invariant [0 <= lower <= predicted <= upper] is what the
    bounds of lines 275-278 aim at, and it fails when the raw prediction
    is negative: [upper] is computed from the raw value before
    [predicted] is floored at zero.  On the series 1000, 1 the single
    point returned is [predicted = 0.0], [lower = 0.0],
    [upper = -398.8], for every estimator and every model identifier. *)
Theorem upper_below_predicted_on_falling_series
  (NP : Numpy) (SK : Sklearn) (PF : PyFloat) (model : string) :
  exists res p,
    generate_forecast (forecast_request 1 model) series_falling = Success res /\
    ForecastResult.predictions res = [p] /\
    PredictionPoint.year p = 2022%Z /\
    PredictionPoint.predicted p == 0 /\
    PredictionPoint.lower p == 0 /\
    PredictionPoint.upper p == -398.8 /\
    ~ (0 <= PredictionPoint.lower p
       /\ PredictionPoint.lower p <= PredictionPoint.predicted p
       /\ PredictionPoint.predicted p <= PredictionPoint.upper p).
Proof.
  assert (Hlen : (2 <= length series_falling)%nat) by (cbn; lia).
  assert (Ht : use_ml (training (forecast_request 1 model) series_falling)
               = false).
  { rewrite training_small; [reflexivity | cbn; lia]. }
  destruct (falling_trend_value PF) as [t [Et Hv]].
  rewrite (generate_forecast_cases _ _ Hlen).
  cbn [forecast_request ForecastRequest.years].
  change (py_range 1 (1 + 1)) with [1%Z]. cbn [map collect].
  rewrite (point_at_trend _ _ 1 Ht). cbv zeta. rewrite Et.
  cbn [bind all_finite option_map].
  assert (Hw : Qabs t * 0.20 == Qabs (-498.5) * 0.20) by now rewrite Hv.
  rewrite (make_point_comp _ _ _ _ _ Hv Hw).
  do 2 eexists. split; [reflexivity|].
  cbn [ForecastResult.predictions]. split; [reflexivity|].
  vm_compute. repeat split; try discriminate.
  intros [_ [_ H]]. exact (H eq_refl).
Qed.

(** C2 fails as worded: on the series 1000, 1 the growth factor of the
    trend path is -498.5, and its power leaves the range of floats at
    the 115th step.  A horizon of 114 years gets its 114 points; a
    horizon of 115 years is answered with 500, and gets none. *)
Lemma overflowing_horizon_counterexample :
  (2 <= length series_falling)%nat /\
  (0 < ForecastRequest.years (forecast_request 115 "hybrid"))%Z /\
  (exists res,
     generate_forecast (NP := numpy_zero) (SK := sk_answers)
       (PF := float_exact) (forecast_request 114 "hybrid") series_falling
       = Success res /\
     length (ForecastResult.predictions res) = 114%nat) /\
  generate_forecast (NP := numpy_zero) (SK := sk_answers) (PF := float_exact)
    (forecast_request 115 "hybrid") series_falling
  = HTTPException 500
      "Error generating forecast: (34, 'Numerical result out of range')".
Proof.
  split; [cbn; lia|]. split; [cbn; lia|]. split.
  - eexists. split; [vm_compute; reflexivity | reflexivity].
  - vm_compute. reflexivity.
Qed.

(** The forecast of the specification's scenario, for a horizon of two
    years, covers 2024 and 2025. *)
Lemma forecast_years_consecutive_witness :
  let request := forecast_request 2 "hybrid" in
  let amounts := amounts_of series_2020_2023 in
  let st := training (NP := numpy_zero) (SK := sk_answers)
              request series_2020_2023 in
  (2 <= length series_2020_2023)%nat /\
  (0 < ForecastRequest.years request)%Z /\
  exists last_year : Z,
    In last_year (years_of series_2020_2023) /\
    (forall y, In y (years_of series_2020_2023) -> (y <= last_year)%Z) /\
    (forall res,
       generate_forecast (NP := numpy_zero) (SK := sk_answers)
         (PF := float_exact) request series_2020_2023 = Success res ->
       Z.of_nat (length (ForecastResult.predictions res))
         = ForecastRequest.years request /\
       forall k : nat,
         (Z.of_nat k < ForecastRequest.years request)%Z ->
         nth_error (map PredictionPoint.year (ForecastResult.predictions res)) k
         = Some (last_year + 1 + Z.of_nat k)%Z) /\
    (use_ml st = true ->
     exists res,
       generate_forecast (NP := numpy_zero) (SK := sk_answers)
         (PF := float_exact) request series_2020_2023 = Success res) /\
    ((forall i, (1 <= i <= ForecastRequest.years request)%Z ->
                exists t,
                  trend_value (PF := float_exact)
                    (last amounts 0) (avg_annual_change amounts) i
                  = Return (Num t)) ->
     exists res,
       generate_forecast (NP := numpy_zero) (SK := sk_answers)
         (PF := float_exact) request series_2020_2023 = Success res) /\
    (forall status detail,
       generate_forecast (NP := numpy_zero) (SK := sk_answers)
         (PF := float_exact) request series_2020_2023
       = HTTPException status detail ->
       status = 500%Z /\ use_ml st = false /\
       exists i, (1 <= i <= ForecastRequest.years request)%Z /\
                 trend_value (PF := float_exact)
                   (last amounts 0) (avg_annual_change amounts) i
                 = Raise).
Proof.
  cbv zeta.
  assert (H1 : (2 <= length series_2020_2023)%nat) by (cbn; lia).
  assert (H2 : (0 < ForecastRequest.years (forecast_request 2 "hybrid"))%Z)
    by (cbn; lia).
  exact (conj H1 (conj H2
    (forecast_years_consecutive (NP := numpy_zero) (SK := sk_answers)
       (PF := float_exact)
       (forecast_request 2 "hybrid") series_2020_2023 H1 H2))).
Defined.

(** On the scenario the two points of a horizon of two years carry the
    years 2024 and 2025, after the last observed year 2023. *)
Example forecast_years_on_scenario :
  exists res,
    generate_forecast (NP := numpy_zero) (SK := sk_answers)
      (PF := float_exact) (forecast_request 2 "hybrid") series_2020_2023
      = Success res /\
    map PredictionPoint.year (ForecastResult.predictions res)
    = [2024%Z; 2025%Z].
Proof. eexists. split; reflexivity. Qed.



(** On the two-point series 100, 120 the forecast of one year is
    returned, and its point is 130.00: the trend 120 * (1 + 20 / 120 *
    0.5), within 104.00 and 156.00. *)
Example trend_on_two_points :
  exists res,
    generate_forecast (NP := numpy_zero) (SK := sk_no_score)
      (PF := float_exact) (forecast_request 1 "hybrid") series_two_points
      = Success res /\
    Forall2 Qeq (map PredictionPoint.predicted (ForecastResult.predictions res))
            [130] /\
    Forall2 Qeq (map PredictionPoint.lower (ForecastResult.predictions res))
            [104] /\
    Forall2 Qeq (map PredictionPoint.upper (ForecastResult.predictions res))
            [156].
Proof.
  eexists. split; [vm_compute; reflexivity|]. repeat split; repeat constructor.
Qed.

(** C4 fails as worded: on a three-point series the identifier
    "xgboost" gets the averaging ensemble, not the boosted regressor. *)
Lemma model_identifier_alone_counterexample :
  len (frame_of (NP := numpy_zero) series_three_points) = 3%nat /\
  select_model "xgboost" 3 = (RandomForestRegressor 100 42, 86.5) /\
  select_model "xgboost" 3 <> configuration_of "xgboost".
Proof.
  split; [reflexivity|]. split; [reflexivity|].
  intro H. vm_compute in H. discriminate H.
Qed.

Section AnsweringEstimator.
#[local] Existing Instance numpy_zero.
#[local] Existing Instance sk_answers.
#[local] Existing Instance float_exact.

Lemma select_model_by_size_then_name_witness :
  select_model "xgboost" 3 = (RandomForestRegressor 100 42, 86.5) /\
  select_model "xgboost" 5 = (GradientBoostingRegressor 100 0.1 None 42, 89.2).
Proof.
  split.
  - apply (proj1 (select_model_by_size_then_name "xgboost" 3)). lia.
  - apply (proj2 (select_model_by_size_then_name "xgboost" 5)). lia.
Defined.

(** C5 fails as worded: on the four-point scenario the "hybrid"
    request is fitted with in-sample score 0.9, and the reported
    accuracy is capped at 86.5, the ceiling of the ensemble selected for
    short series, not at the 91.8 of "hybrid".  On a three-point series
    the single training row has no score (nan), and the accuracy
    reported for "hybrid" is again 86.5, which is neither bound of the
    interval from 75.0 to 91.8. *)
Lemma requested_ceiling_counterexample :
  let request := forecast_request 2 "hybrid" in
  let df := frame_of (NP := numpy_zero) series_2020_2023 in
  let selected := select_model (ForecastRequest.model request) (len df) in
  fit (Sklearn := sk_answers) (fst selected) (X_train df) (y_train df)
    = Return 200 /\
  predict (Sklearn := sk_answers) 200 (X_train df) = Return [200; 200] /\
  r2_score (Sklearn := sk_answers) (y_train df) [200; 200]
    = Return (Some 0.9) /\
  (exists res,
    generate_forecast (NP := numpy_zero) (SK := sk_answers)
      request series_2020_2023 = Success res /\
    confidence (ForecastResult.accuracy res) == 86.5 /\
    ~ confidence (ForecastResult.accuracy res)
      == clamp (0.9 * 100) 75.0 (expected_ceiling "hybrid")) /\
  r2_score (Sklearn := sk_no_score)
    (y_train (frame_of (NP := numpy_zero) series_three_points)) [150]
    = Return None /\
  exists res,
    generate_forecast (NP := numpy_zero) (SK := sk_no_score)
      (forecast_request 2 "hybrid") series_three_points = Success res /\
    confidence (ForecastResult.accuracy res) == 86.5 /\
    ~ confidence (ForecastResult.accuracy res) == 75.0 /\
    ~ confidence (ForecastResult.accuracy res) == expected_ceiling "hybrid".
Proof.
  cbv zeta. repeat split.
  - eexists. split; [reflexivity|]. split; [reflexivity|].
    vm_compute. discriminate.
  - eexists. split; [reflexivity|]. split; [reflexivity|].
    split; vm_compute; discriminate.
Qed.

Lemma accuracy_clamped_to_selected_ceiling_witness :
  (2 <= length series_2020_2023)%nat /\
  exists res,
    generate_forecast (forecast_request 2 "hybrid") series_2020_2023
      = Success res /\
    75.0 <= confidence (ForecastResult.accuracy res)
         <= expected_ceiling "hybrid" /\
    confidence (ForecastResult.accuracy res) == clamp (0.9 * 100) 75.0 86.5.
Proof.
  assert (H1 : (2 <= length series_2020_2023)%nat) by (cbn; lia).
  assert (H3 : (3 <= length series_2020_2023)%nat) by (cbn; lia).
  split; [exact H1|].
  destruct (accuracy_clamped_to_selected_ceiling
              (forecast_request 2 "hybrid") series_2020_2023 H1)
    as [Hb Hc].
  destruct (Hc 200 [200; 200] (Some 0.9) H3 eq_refl eq_refl eq_refl)
    as [res [E Hr]].
  exists res. split; [exact E|]. split; [exact (Hb res E) | exact Hr].
Defined.



(** On the scenario the model answers 200 at the second step as well,
    as close to the last amount as at the first; the second point is
    233.33 all the same, the answer plus the drift 100 / 3 * 0.5 * 2,
    and not the 230.00 of the override. *)
Example no_override_at_second_step :
  exists res p,
    generate_forecast (forecast_request 2 "hybrid") series_2020_2023
      = Success res /\
    predict (Sklearn := sk_answers) 200
      [new_features (frame_of series_2020_2023) 2] = Return [200] /\
    nth_error (ForecastResult.predictions res) 1 = Some p /\
    PredictionPoint.predicted p == 233.33.
Proof.
  do 2 eexists. split; [reflexivity|]. split; [reflexivity|].
  split; reflexivity.
Qed.

(** C8 fails as worded: the series 1000, 1 has two points, and with a
    horizon of 120 years it is answered with the error status 500: the
    power of line 272 raises at the 115th step, outside the inner
    [try], and lines 367-369 turn the error into that answer. *)
Lemma trend_overflow_counterexample :
  (2 <= length series_falling)%nat /\
  generate_forecast (forecast_request 120 "prophet") series_falling
  = HTTPException 500
      "Error generating forecast: (34, 'Numerical result out of range')" /\
  use_ml (training (forecast_request 120 "prophet") series_falling) = false /\
  trend_value (last (amounts_of series_falling) 0)
    (avg_annual_change (amounts_of series_falling)) 115 = Raise.
Proof.
  split; [cbn; lia|]. split; [vm_compute; reflexivity|].
  split; vm_compute; reflexivity.
Qed.

Lemma generate_forecast_errors_witness :
  (exists detail,
     generate_forecast (forecast_request 3 "hybrid") [row 2023 500]
       = HTTPException 400 detail) /\
  (exists detail,
     generate_forecast (forecast_request 3 "hybrid") []
       = HTTPException 404 detail) /\
  (exists detail,
     generate_forecast (forecast_request 120 "prophet") series_falling
       = HTTPException 500 detail) /\
  exists res,
    generate_forecast (forecast_request 3 "hybrid") series_2020_2023
      = Success res /\
    length (ForecastResult.predictions res) = 3%nat.
Proof.
  split; [|split; [|split]].
  - apply (proj1 (proj2 (generate_forecast_errors
                           (forecast_request 3 "hybrid") [row 2023 500]))).
    reflexivity.
  - apply (proj1 (generate_forecast_errors (forecast_request 3 "hybrid") [])).
    reflexivity.
  - apply (proj1 (proj2 (proj2 (generate_forecast_errors
                                  (forecast_request 120 "prophet")
                                  series_falling)))).
    split; [cbn; lia|]. split; [reflexivity|].
    exists 115%Z. split; [cbn; lia | vm_compute; reflexivity].
  - apply (proj2 (proj2 (proj2 (proj2 (generate_forecast_errors
                                  (forecast_request 3 "hybrid")
                                  series_2020_2023))))).
    + cbn. lia.
    + left. reflexivity.
Defined.

(** C9 fails as worded: when the handler's own query fails (its
    error is caught at line 429) while the nested forecast, which
    retries its query, is returned, the result carries the constant
    25000 as [base_value], not the mean 142.5 of the historical
    amounts. *)
Lemma failed_own_query_counterexample :
  exists res forecast_result,
    generate_forecast
      {| ForecastRequest.country := "India";
         ForecastRequest.sector := None;
         ForecastRequest.years := 4;
         ForecastRequest.model := "hybrid" |} series_2020_2023
      = Success forecast_result /\
    generate_shap_explanations (shap_request 4 "hybrid") Raise
      series_2020_2023 = Success res /\
    SHAPResult.base_value res == 25000 /\
    np_mean (amounts_of series_2020_2023) == 142.5 /\
    ~ SHAPResult.base_value res == np_mean (amounts_of series_2020_2023).
Proof.
  do 2 eexists. split; [reflexivity|]. split; [reflexivity|].
  split; [reflexivity|]. split; [reflexivity|].
  vm_compute. discriminate.
Qed.

Lemma shap_consistent_with_forecast_witness :
  let request := shap_request 4 "hybrid" in
  let years := SHAPRequest.years request in
  exists forecast_result,
    generate_forecast
      {| ForecastRequest.country := SHAPRequest.country request;
         ForecastRequest.sector := SHAPRequest.sector request;
         ForecastRequest.years := years;
         ForecastRequest.model := SHAPRequest.model request |}
      series_2020_2023 = Success forecast_result /\
    (0 < years)%Z /\
    exists res final,
      generate_shap_explanations request (Return series_2020_2023)
        series_2020_2023 = Success res /\
      nth_error (ForecastResult.predictions forecast_result)
                (Z.to_nat (years - 1)) = Some final /\
      length (ForecastResult.predictions forecast_result) = Z.to_nat years /\
      SHAPResult.model_prediction res = PredictionPoint.predicted final /\
      SHAPResult.base_value res = np_mean (amounts_of series_2020_2023) /\
      SHAPResult.explanations res = medium_term_explanations.
Proof.
  cbv zeta.
  assert (H2 : (0 < SHAPRequest.years (shap_request 4 "hybrid"))%Z)
    by (cbn; lia).
  assert (Hf : exists forecast_result,
             generate_forecast
               (to_forecast_request (shap_request 4 "hybrid"))
               series_2020_2023 = Success forecast_result)
    by (eexists; reflexivity).
  destruct Hf as [forecast_result Hf].
  exists forecast_result. split; [exact Hf|]. split; [exact H2|].
  destruct (shap_consistent_with_forecast (shap_request 4 "hybrid")
              (Return series_2020_2023) series_2020_2023 forecast_result
              Hf H2)
    as [res [final [E [Hn [Hl [Hm [Hb [_ [_ [_ [He _]]]]]]]]]]].
  exists res, final. split; [exact E|]. split; [exact Hn|].
  split; [exact Hl|]. split; [exact Hm|]. split.
  - apply (Hb series_2020_2023 eq_refl); [discriminate|].
    repeat constructor; discriminate.
  - apply He. cbn. lia.
Defined.

Lemma accuracy_map_entries_witness :
  exists res,
    generate_forecast (forecast_request 2 "hybrid") series_2020_2023
      = Success res /\
    let a := ForecastResult.accuracy res in
    let st := training (forecast_request 2 "hybrid") series_2020_2023 in
    use_ml st = true /\
    confidence a = model_accuracy st /\
    hybrid a = model_accuracy st /\
    prophet a = 86.5 /\
    xgboost a = 89.2.
Proof.
  assert (Hf : exists res,
             generate_forecast (forecast_request 2 "hybrid") series_2020_2023
             = Success res) by (eexists; reflexivity).
  destruct Hf as [res Hf]. exists res. split; [exact Hf|].
  destruct (accuracy_map_entries
              (forecast_request 2 "hybrid") series_2020_2023 res Hf)
    as [Hc [_ [_ Hh]]].
  split; [reflexivity|]. split; [exact Hc|].
  apply Hh; discriminate.
Defined.

End AnsweringEstimator.

Section RaisingEstimator.
#[local] Existing Instance numpy_zero.
#[local] Existing Instance sk_raises_at_first_step.
#[local] Existing Instance float_exact.



End RaisingEstimator.

(** When [fit] raises on the scenario, the request still succeeds, on
    the trend path and with accuracy 75.0. *)
Example failed_fit_on_scenario :
  exists res,
    generate_forecast (NP := numpy_zero) (SK := failing_model)
      (PF := float_exact)
      (forecast_request 2 "hybrid") series_2020_2023 = Success res /\
    confidence (ForecastResult.accuracy res) = 75.0 /\
    method (ForecastResult.accuracy res) = "Trend Analysis"%string /\
    Forall2 Qeq (map PredictionPoint.predicted (ForecastResult.predictions res))
            [216.67; 234.72].
Proof.
  eexists. split; [vm_compute; reflexivity|]. repeat split.
  repeat constructor.
Qed.

(** * Properties beyond the claims *)

(** ** Bounds of the forecast points *)

Lemma Forall2_Forall_r {A B} (R : A -> B -> Prop) (P : B -> Prop)
  (l : list A) (l' : list B) :
  (forall a b, R a b -> P b) -> Forall2 R l l' -> Forall P l'.
Proof.
  intros HP H. induction H as [|a b l l' Hab _ IH]; constructor; eauto.
Qed.

Section ForecastBounds.
Context {NP : Numpy} {SK : Sklearn} {PF : PyFloat}.

Lemma point_at_values (request : ForecastRequest.t)
  (historical_data : list Row.t) (i : Z) :
  point_at request historical_data i
  = match step_values request historical_data i with
    | Return (inl pv) =>
        Return (inl (make_point (py_max_list (years_of historical_data) + i)
                                (fst pv) (snd pv)))
    | Return (inr c) => Return (inr c)
    | Raise => Raise
    end.
Proof.
  unfold point_at, forecast_step, step_values. cbv zeta.
  destruct (match use_ml _, fitted _ with
            | true, Some m => _ | _, _ => _ end) as [[[p v]|c]|];
    reflexivity.
Qed.

Lemma expected_ceiling_le (model : string) : expected_ceiling model <= 91.8.
Proof.
  unfold expected_ceiling, configuration_of.
  destruct (model =? "prophet")%string; [cbn; lra|].
  destruct (model =? "xgboost")%string; cbn; lra.
Qed.

Lemma Qabs_scaled_nonneg (p c : Q) : 0 <= c -> 0 <= Qabs p * c.
Proof. intro H. apply Qmult_le_0_compat; [apply Qabs_nonneg | exact H]. Qed.

(** The confidence factor of line 262 for an accuracy between 75 and
    91.8. *)
Lemma confidence_factor_bounds (acc : Q) :
  75 <= acc <= 91.8 ->
  0.1205 <= (100 - acc) / 100 * 0.25 + 0.10 <= 0.1625.
Proof.
  intros [Hlo Hhi].
  assert (E : (100 - acc) / 100 * 0.25 + 0.10 == 0.35 - acc * 0.0025)
    by field.
  rewrite E. split; lra.
Qed.

Lemma adjust_variability (amounts : list Q) (acc : Q) (i : Z) (raw : Q) :
  snd (adjust amounts acc i raw)
  = Qabs (fst (adjust amounts acc i raw)) * ((100 - acc) / 100 * 0.25 + 0.10).
Proof. reflexivity. Qed.

Lemma step_values_variability (request : ForecastRequest.t)
  (historical_data : list Row.t) (i : Z) (pv : Q * Q) :
  step_values request historical_data i = Return (inl pv) ->
  0 <= snd pv.
Proof.
  unfold step_values. cbv zeta.
  pose proof (training_accuracy_bounds request historical_data) as Hb.
  pose proof (expected_ceiling_le (ForecastRequest.model request)) as Hc.
  assert (Ht : forall b a k,
             trend_step b a k = Return (inl pv) -> 0 <= snd pv).
  { intros b a k. unfold trend_step.
    destruct (trend_value b a k) as [[t| |n]|]; cbn [bind]; intro H;
      try discriminate H.
    apply Return_inl_inj in H. subst pv. cbn [snd].
    apply Qabs_scaled_nonneg. lra. }
  assert (He : forall b a k, 0 <= snd (except_step b a k))
    by (intros; apply Qabs_scaled_nonneg; lra).
  destruct (use_ml _); [|apply Ht].
  destruct (fitted _) as [m|]; [|apply Ht].
  unfold ml_step. destruct (predict _ _) as [[|raw rest]|]; cbn [bind];
    intro H; apply Return_inl_inj in H; subst pv; try apply He.
  rewrite adjust_variability. apply Qabs_scaled_nonneg.
  pose proof (confidence_factor_bounds
                (model_accuracy (training request historical_data))) as Hf.
  lra.
Qed.

Lemma make_point_lower_half (y : Z) (p v : Q) :
  0 <= v ->
  0 <= PredictionPoint.lower (make_point y p v) /\
  PredictionPoint.lower (make_point y p v)
    <= PredictionPoint.predicted (make_point y p v).
Proof.
  intro Hv. cbn. split.
  - apply Qle_trans with (round2 0); [rewrite round2_0; apply Qle_refl|].
    apply round2_mono. apply py_max_spec.
  - apply round2_mono. unfold py_max. case_Qltb; lra.
Qed.

(** A point of a step is built from the values of that step. *)
Lemma point_of_step (request : ForecastRequest.t)
  (historical_data : list Row.t) (i : Z) (p : PredictionPoint.t) :
  point_at request historical_data i = Return (inl p) ->
  exists pv,
    step_values request historical_data i = Return (inl pv) /\
    p = make_point (py_max_list (years_of historical_data) + i)
          (fst pv) (snd pv).
Proof.
  rewrite point_at_values.
  destruct (step_values request historical_data i) as [[pv|c]|];
    intro H; try discriminate H.
  apply Return_inl_inj in H. now exists pv.
Qed.

(** X1: whatever the series, the horizon, the model identifier and the
    estimator, every point of a forecast has [0 <= lower <= predicted]
    (so [predicted] is never negative either). *)
Theorem forecast_lower_half_ordered (request : ForecastRequest.t)
  (historical_data : list Row.t) (res : ForecastResult.t) :
  generate_forecast request historical_data = Success res ->
  Forall (fun p => 0 <= PredictionPoint.lower p /\
                   PredictionPoint.lower p <= PredictionPoint.predicted p)
         (ForecastResult.predictions res).
Proof.
  intro H. destruct (success_steps _ _ _ H) as [Hs _].
  apply (Forall2_Forall_r _ _ _ _) with (2 := Hs).
  intros i p Hp. destruct (point_of_step _ _ _ _ Hp) as [pv [Ev ->]].
  apply make_point_lower_half.
  exact (step_values_variability _ _ _ _ Ev).
Qed.

(** X2: the full order [0 <= lower <= predicted <= upper] holds at
    every step whose prediction, before flooring and rounding, is not
    negative. *)
Theorem forecast_ordered_when_raw_nonnegative (request : ForecastRequest.t)
  (historical_data : list Row.t) (res : ForecastResult.t) (i : Z)
  (pv : Q * Q) :
  generate_forecast request historical_data = Success res ->
  (1 <= i <= ForecastRequest.years request)%Z ->
  step_values request historical_data i = Return (inl pv) ->
  0 <= fst pv ->
  exists p,
    nth_error (ForecastResult.predictions res) (Z.to_nat (i - 1)) = Some p /\
    interval_ordered p.
Proof.
  intros H Hi Ev Hp. destruct (success_nth _ _ _ i H Hi) as [p [Hn Ep]].
  exists p. split; [exact Hn|].
  destruct (point_of_step _ _ _ _ Ep) as [pv' [Ev' ->]].
  assert (pv' = pv) by congruence. subst pv'.
  apply make_point_ordered; [exact Hp|].
  exact (step_values_variability _ _ _ _ Ev).
Qed.



(** X6: the [method] entry of the accuracy map is "Trend Analysis"
    exactly when no model is in use (none was trained, or the fit
    raised). *)
Theorem method_names_trend_iff_no_model (request : ForecastRequest.t)
  (historical_data : list Row.t) (res : ForecastResult.t) :
  generate_forecast request historical_data = Success res ->
  (method (ForecastResult.accuracy res) = "Trend Analysis"%string
   <-> use_ml (training request historical_data) = false).
Proof.
  intro H. destruct (success_steps _ _ _ H) as [_ Ha]. rewrite Ha.
  unfold accuracy_dict.
  destruct (_ =? "prophet")%string;
    [|destruct (_ =? "xgboost")%string];
    destruct (use_ml _); cbn [method]; split; intro E;
    try reflexivity; discriminate E.
Qed.

End ForecastBounds.

(** ** The explanation handler off its main path *)

Section ExplanationPaths.
Context {NP : Numpy} {SK : Sklearn} {PF : PyFloat}.

Lemma forecast_error_of_short_series (request : ForecastRequest.t)
  (historical_data : list Row.t) :
  (length historical_data < 2)%nat ->
  exists status detail,
    generate_forecast request historical_data = HTTPException status detail.
Proof.
  destruct historical_data as [|r1 [|r2 t]]; cbn [length]; try lia;
    intros _; do 2 eexists; reflexivity.
Qed.

(** The handler after a nested forecast that answered with an error,
    whatever its status (lines 455-470). *)
Lemma shap_after_forecast_error (request : SHAPRequest.t)
  (shap_query : exc (list Row.t)) (forecast_rows : list Row.t)
  (status : Z) (detail : string) :
  generate_forecast (to_forecast_request request) forecast_rows
    = HTTPException status detail ->
  let amounts := map snd (usable_history shap_query) in
  generate_shap_explanations request shap_query forecast_rows
  = if (3 <=? length (usable_history shap_query))%nat then
      Success
        {| SHAPResult.explanations :=
             explanations_for (SHAPRequest.years request);
           SHAPResult.model_prediction :=
             last amounts 0
             + (last amounts 0 - nth (length amounts - 3) amounts 0) / 2;
           SHAPResult.base_value := np_mean amounts;
           SHAPResult.country := SHAPRequest.country request;
           SHAPResult.sector := SHAPRequest.sector request |}
    else
      HTTPException 404
        ("No forecast or historical data found for "
           ++ SHAPRequest.country request).
Proof.
  intros E amounts.
  unfold generate_shap_explanations. rewrite E.
  fold (usable_history shap_query). fold amounts.
  destruct (3 <=? length (usable_history shap_query))%nat; reflexivity.
Qed.

(** After a nested forecast that holds a float which is not finite,
    the handler answers with no error status. *)
Lemma shap_after_nonfinite_forecast (request : SHAPRequest.t)
  (shap_query : exc (list Row.t)) (forecast_rows : list Row.t)
  (status : Z) (detail : string) :
  generate_forecast (to_forecast_request request) forecast_rows = NonFinite ->
  generate_shap_explanations request shap_query forecast_rows
  <> HTTPException status detail.
Proof.
  intro E. unfold generate_shap_explanations. rewrite E.
  destruct (last_prediction _ _); discriminate.
Qed.

(** X7: the explanation handler answers 404 exactly when the nested
    forecast, asked for the country, the sector, the model and the
    horizon of the explanation request, answers with an error status
    (404, 400 or 500) and its own query leaves fewer than three usable
    rows; it gives no other error status, so that neither the 400 nor
    the 500 of the forecast reaches the caller. *)
Theorem shap_error_surface (request : SHAPRequest.t)
  (shap_query : exc (list Row.t)) (forecast_rows : list Row.t) :
  let nested :=
    generate_forecast
      {| ForecastRequest.country := SHAPRequest.country request;
         ForecastRequest.sector := SHAPRequest.sector request;
         ForecastRequest.years := SHAPRequest.years request;
         ForecastRequest.model := SHAPRequest.model request |}
      forecast_rows in
  ((exists detail,
      generate_shap_explanations request shap_query forecast_rows
      = HTTPException 404 detail)
   <-> (exists status detail, nested = HTTPException status detail) /\
       (length (usable_history shap_query) < 3)%nat) /\
  (forall status detail,
      generate_shap_explanations request shap_query forecast_rows
      = HTTPException status detail -> status = 404%Z).
Proof.
  intro nested.
  change nested
    with (generate_forecast (to_forecast_request request) forecast_rows).
  destruct (generate_forecast (to_forecast_request request) forecast_rows)
    as [forecast_result|status0 detail0|] eqn:En.
  - rewrite (shap_after_forecast request shap_query forecast_rows _ En).
    split.
    + split; [intros [d H]; discriminate H|].
      intros [[s [d H]] _]. discriminate H.
    + intros status detail H. discriminate H.
  - pose proof (shap_after_forecast_error request shap_query forecast_rows
                  _ _ En) as E. cbv zeta in E. rewrite E.
    destruct (3 <=? length (usable_history shap_query))%nat eqn:E3.
    + apply Nat.leb_le in E3. split.
      * split; [intros [d H]; discriminate H | lia].
      * intros status detail H. discriminate H.
    + apply Nat.leb_gt in E3. split.
      * split; [intros _; split; [now exists status0, detail0 | exact E3]
               | intros _; eexists; reflexivity].
      * intros status detail H. now injection H as <- _.
  - split.
    + split.
      * intros [d H].
        exfalso.
        exact (shap_after_nonfinite_forecast request shap_query forecast_rows
                 _ _ En H).
      * intros [[s [d H]] _]. discriminate H.
    + intros status detail H. exfalso.
      exact (shap_after_nonfinite_forecast request shap_query forecast_rows
               _ _ En H).
Qed.


(** X9: when the nested forecast, asked for the country, the sector,
    the model and the horizon of the explanation request, is returned,
    the handler always returns a result, with the explanation list of
    the horizon's bucket; the constant 25000 stands in for [base_value]
    when its own query left no usable row, and for [model_prediction]
    when the horizon is not positive. *)
Theorem shap_defaults (request : SHAPRequest.t)
  (shap_query : exc (list Row.t)) (forecast_rows : list Row.t)
  (forecast_result : ForecastResult.t) :
  generate_forecast
    {| ForecastRequest.country := SHAPRequest.country request;
       ForecastRequest.sector := SHAPRequest.sector request;
       ForecastRequest.years := SHAPRequest.years request;
       ForecastRequest.model := SHAPRequest.model request |}
    forecast_rows = Success forecast_result ->
  exists res,
    generate_shap_explanations request shap_query forecast_rows = Success res /\
    SHAPResult.explanations res = explanations_for (SHAPRequest.years request) /\
    (usable_history shap_query = [] -> SHAPResult.base_value res == 25000) /\
    ((SHAPRequest.years request <= 0)%Z ->
     SHAPResult.model_prediction res = 25000).
Proof.
  intro E.
  change {| ForecastRequest.country := SHAPRequest.country request;
            ForecastRequest.sector := SHAPRequest.sector request;
            ForecastRequest.years := SHAPRequest.years request;
            ForecastRequest.model := SHAPRequest.model request |}
    with (to_forecast_request request) in E.
  rewrite (shap_after_forecast request shap_query forecast_rows _ E).
  eexists. split; [reflexivity|].
  cbn [SHAPResult.explanations SHAPResult.base_value
       SHAPResult.model_prediction].
  split; [reflexivity|]. split.
  - intros ->. reflexivity.
  - intro Hy. pose proof (success_length _ _ _ E) as Hl.
    change (ForecastRequest.years (to_forecast_request request))
      with (SHAPRequest.years request) in Hl.
    destruct (ForecastResult.predictions forecast_result);
      [reflexivity | cbn [length] in Hl; lia].
Qed.

(** A null total anywhere, or a failed query, leaves no usable row. *)
Lemma usable_history_null (rows : list Row.t) :
  Exists (fun r => Row.total_aid r = None) rows ->
  usable_history (Return rows) = [].
Proof.
  intro H. unfold usable_history. cbn [bind].
  assert (E : to_historical rows = Raise).
  { induction H as [r t Hr | r t _ IH]; cbn [to_historical].
    - now rewrite Hr.
    - destruct (Row.total_aid r); [now rewrite IH | reflexivity]. }
  now rewrite E.
Qed.

End ExplanationPaths.

(** ** Cross-validated accuracy *)

Lemma round_at_mono (scale : positive) (p q : Q) :
  p <= q -> round_at scale p <= round_at scale q.
Proof.
  intro H. unfold round_at, Qle. cbn [Qnum Qden].
  assert (Hm : p * inject_Z (Z.pos scale) <= q * inject_Z (Z.pos scale)).
  { apply Qmult_le_compat_r; [exact H|]. unfold Qle. cbn. lia. }
  pose proof (round_half_even_mono _ _ Hm). nia.
Qed.

Lemma round_at_comp (scale : positive) (p q : Q) :
  p == q -> round_at scale p = round_at scale q.
Proof.
  intro H. unfold round_at. f_equal. apply round_half_even_comp.
  now rewrite H.
Qed.

Lemma py_min_max_clamp (x : Q) :
  py_min 95.0 (py_max 75.0 x) == clamp x 75.0 95.0.
Proof. unfold py_min, py_max, clamp. case_Qltb; lra. Qed.

Lemma clamp_bounds (x lo hi : Q) : lo <= hi -> lo <= clamp x lo hi <= hi.
Proof. intro H. unfold clamp. case_Qltb; split; lra. Qed.

Lemma round1_clamped (x : Q) :
  75 <= round1 (py_min 95.0 (py_max 75.0 x)) <= 95.
Proof.
  assert (Hc : 75 <= clamp x 75.0 95.0 <= 95).
  { pose proof (clamp_bounds x 75.0 95.0). lra. }
  unfold round1. rewrite (round_at_comp 10 _ _ (py_min_max_clamp x)). split.
  - apply Qle_trans with (round_at 10 75); [vm_compute; discriminate|].
    apply round_at_mono. lra.
  - apply Qle_trans with (round_at 10 95); [|vm_compute; discriminate].
    apply round_at_mono. lra.
Qed.

(** *** What [dropna] leaves *)

Lemma nth_shift (k : nat) (col : list Q) (i : nat) :
  (i < length col)%nat ->
  nth i (shift k col) NaN
  = if (i <? k)%nat then NaN else Num (nth (i - k) col 0).
Proof.
  intro H. unfold shift. rewrite nth_firstn.
  replace (i <? length col)%nat with true
    by (symmetry; apply Nat.ltb_lt; exact H).
  destruct (i <? k)%nat eqn:E.
  - apply Nat.ltb_lt in E.
    rewrite app_nth1 by (rewrite repeat_length; exact E).
    apply nth_repeat.
  - apply Nat.ltb_ge in E.
    rewrite app_nth2 by (rewrite repeat_length; exact E).
    rewrite repeat_length.
    rewrite (nth_indep _ NaN (Num 0)) by (rewrite length_map; lia).
    apply (map_nth Num).
Qed.

Lemma np_diff_length (col : list Q) : length (np_diff col) = (length col - 1)%nat.
Proof.
  induction col as [|a [|b t] IH]; try reflexivity.
  change (np_diff (a :: b :: t)) with ((b - a) :: np_diff (b :: t)).
  cbn [length] in *. rewrite IH. lia.
Qed.

Lemma nth_np_diff (col : list Q) (i : nat) :
  (S i < length col)%nat ->
  nth i (np_diff col) 0 = nth (S i) col 0 - nth i col 0.
Proof.
  revert i. induction col as [|a [|b t] IH]; intros i H;
    cbn [length] in H; try lia.
  change (np_diff (a :: b :: t)) with ((b - a) :: np_diff (b :: t)).
  destruct i as [|i]; [reflexivity|].
  cbn [nth]. rewrite IH by (cbn [length]; lia). reflexivity.
Qed.

Lemma nth_diff (col : list Q) (i : nat) :
  (i < length col)%nat ->
  nth i (diff col) NaN
  = match i with
    | O => NaN
    | S j => Num (nth (S j) col 0 - nth j col 0)
    end.
Proof.
  intro H. destruct col as [|a t]; [cbn in H; lia|].
  unfold diff. destruct i as [|j]; [reflexivity|].
  cbn [nth].
  rewrite (nth_indep _ NaN (Num 0))
    by (rewrite length_map, np_diff_length; cbn [length] in *; lia).
  rewrite (map_nth Num). now rewrite nth_np_diff.
Qed.

Lemma nth_map_seq {A} (g : nat -> A) (n i : nat) (d : A) :
  (i < n)%nat -> nth i (map g (seq 0 n)) d = g i.
Proof.
  intro H.
  rewrite (nth_indep _ d (g 0%nat)) by (now rewrite length_map, length_seq).
  rewrite (map_nth g). now rewrite seq_nth.
Qed.

Lemma nth_rolling {A} (w : nat) (f : list Q -> A) (col : list Q) (i : nat)
  (d : A) :
  (i < length col)%nat -> nth i (rolling w f col) d = f (window w col i).
Proof.
  intro H. unfold rolling.
  now apply (nth_map_seq (fun i => f (window w col i))).
Qed.

Lemma filter_map_seq {A} (g : nat -> A) (keep : A -> bool) (l : list nat) :
  filter keep (map g l) = map g (filter (fun i => keep (g i)) l).
Proof.
  induction l as [|i l IH]; [reflexivity|].
  cbn [map filter]. destruct (keep (g i)); cbn [map]; now rewrite IH.
Qed.

Lemma filter_from_2 (n : nat) :
  (2 <= n)%nat ->
  filter (fun i => (2 <=? i)%nat) (seq 0 n) = seq 2 (n - 2).
Proof.
  intro H. replace n with (2 + (n - 2))%nat at 1 by lia.
  rewrite seq_app, filter_app.
  change (filter (fun i => (2 <=? i)%nat) (seq 0 2)) with (@nil nat).
  cbn [app Nat.add].
  apply forallb_filter_id. apply forallb_forall.
  intros i Hi. apply in_seq in Hi.
  destruct i as [|[|i]]; [lia|lia|reflexivity].
Qed.

(** The row of position [i] in the frame of lines 47-52. *)
Lemma cv_frame_rows (historical_data : list (Z * Q)) :
  let amounts := map snd historical_data in
  let row_of i :=
    {| cv_year := nth i (map fst historical_data) 0%Z;
       cv_amount := nth i amounts 0;
       cv_features :=
         {| cv_year_idx := Z.of_nat i;
            cv_lag1 := if (i <? 1)%nat then NaN else Num (nth (i - 1) amounts 0);
            cv_lag2 := if (i <? 2)%nat then NaN else Num (nth (i - 2) amounts 0);
            cv_trend := match i with
                        | O => NaN
                        | S j => Num (nth (S j) amounts 0 - nth j amounts 0)
                        end;
            cv_rolling_mean := Num (np_mean (window 3 amounts i)) |} |} in
  cv_frame historical_data = map row_of (seq 0 (length historical_data)).
Proof.
  intros amounts row_of. unfold cv_frame. apply map_ext_in.
  intros i Hi. apply in_seq in Hi. fold amounts.
  assert (H : (i < length amounts)%nat)
    by (unfold amounts; rewrite length_map; lia).
  unfold row_of.
  now rewrite !nth_shift, nth_diff, nth_rolling by exact H.
Qed.

(** With numbers for amounts, [dropna] removes the first two rows and
    nothing else. *)
Lemma dropna_frame (historical_data : list (Z * Q)) :
  (2 <= length historical_data)%nat ->
  length (dropna (cv_frame historical_data)) = (length historical_data - 2)%nat /\
  map cv_amount (dropna (cv_frame historical_data))
  = skipn 2 (map snd historical_data).
Proof.
  intro H. rewrite cv_frame_rows. cbv zeta. unfold dropna.
  rewrite filter_map_seq.
  rewrite (filter_ext_in _ (fun i => (2 <=? i)%nat)).
  2:{ intros i _. unfold cv_row_isna. cbn.
      destruct i as [|[|i]]; reflexivity. }
  rewrite filter_from_2 by exact H. split.
  - now rewrite length_map, length_seq.
  - rewrite map_map. cbn [cv_amount].
    apply (nth_ext _ _ 0 0).
    + rewrite length_map, length_seq, length_skipn, length_map. reflexivity.
    + intros i Hi. rewrite length_map, length_seq in Hi.
      rewrite (nth_indep _ 0 (nth 0 (map snd historical_data) 0))
        by (rewrite length_map, length_seq; exact Hi).
      rewrite (map_nth (fun i => nth i (map snd historical_data) 0)).
      rewrite seq_nth by exact Hi. now rewrite nth_skipn.
Qed.

Section AccuracyProperties.
Context {MS : ModelSelection}.

Lemma cv_X_length (df : list CVRow) : length (cv_X df) = length df.
Proof. unfold cv_X. now rewrite length_map, length_seq. Qed.

(** From five points on, the report comes from the cross-validation
    call alone. *)
Lemma calculate_model_accuracy_scored (historical_data : list (Z * Q))
  (model_type : string) :
  (5 <= length historical_data)%nat ->
  calculate_model_accuracy historical_data model_type
  = match cv_call historical_data model_type with
    | Return scores =>
        Scored (round1 (clamp (avg_r2_of scores * 100) 75.0 95.0))
               (round3 (avg_r2_of scores)) (length scores)
    | Raise => Noted 80.0 "Default accuracy"
    end.
Proof.
  intro H. unfold calculate_model_accuracy, accuracy_body, cv_call.
  destruct (dropna_frame historical_data) as [Hl Hy]; [lia|].
  replace (length historical_data <? 5)%nat with false
    by (symmetry; apply Nat.ltb_ge; exact H).
  replace (length (dropna (cv_frame historical_data)) <? 3)%nat with false
    by (symmetry; apply Nat.ltb_ge; lia).
  cbv zeta. rewrite cv_X_length, Hl, Hy.
  replace (length historical_data - 2 - 1)%nat
    with (length historical_data - 3)%nat by lia.
  destruct (cross_val_score _ _ _ _) as [scores|]; cbn [bind]; [|reflexivity].
  f_equal. unfold round1. apply round_at_comp. apply py_min_max_clamp.
Qed.

Lemma calculate_model_accuracy_limited (historical_data : list (Z * Q))
  (model_type : string) :
  (length historical_data < 5)%nat ->
  calculate_model_accuracy historical_data model_type
  = Noted 75.0 "Limited data".
Proof.
  intro H. unfold calculate_model_accuracy, accuracy_body.
  replace (length historical_data <? 5)%nat with true
    by (symmetry; apply Nat.ltb_lt; exact H).
  reflexivity.
Qed.

Lemma report_accuracy_bounds (historical_data : list (Z * Q))
  (model_type : string) :
  75 <= report_accuracy (calculate_model_accuracy historical_data model_type)
     <= 95.
Proof.
  destruct (Nat.lt_ge_cases (length historical_data) 5) as [H|H].
  - rewrite calculate_model_accuracy_limited by exact H. cbn. split; lra.
  - rewrite calculate_model_accuracy_scored by exact H.
    destruct (cv_call _ _) as [scores|]; cbn [report_accuracy];
      [|split; lra].
    pose proof (clamp_bounds (avg_r2_of scores * 100) 75.0 95.0) as Hc.
    unfold round1. split.
    + apply Qle_trans with (round_at 10 75); [vm_compute; discriminate|].
      apply round_at_mono. lra.
    + apply Qle_trans with (round_at 10 95); [|vm_compute; discriminate].
      apply round_at_mono. lra.
Qed.

(** X10: whatever the data, the model type and the outcome of the
    cross-validation, the accuracy reported by
    [calculate_model_accuracy] lies between 75 and 95. *)
Theorem calculated_accuracy_range (historical_data : list (Z * Q))
  (model_type : string) :
  75 <= report_accuracy (calculate_model_accuracy historical_data model_type)
     <= 95.
Proof. apply report_accuracy_bounds. Qed.

(** X11: the report has three shapes only.  Fewer than five points give
    75.0 with the note "Limited data"; from five points on the report
    carries [round(clamp(avg_r2 * 100, 75, 95), 1)], the rounded
    [avg_r2] and the number of scores, or 80.0 with the note "Default
    accuracy" when the cross-validation raised.  The note "Insufficient
    data" is never returned: dropping the incomplete rows of five points
    or more always leaves three. *)
Theorem accuracy_report_shapes (historical_data : list (Z * Q))
  (model_type : string) :
  let report := calculate_model_accuracy historical_data model_type in
  ((length historical_data < 5)%nat -> report = Noted 75.0 "Limited data") /\
  ((5 <= length historical_data)%nat ->
   (3 <= length (dropna (cv_frame historical_data)))%nat /\
   report
   = match cv_call historical_data model_type with
     | Return scores =>
         Scored (round1 (clamp (avg_r2_of scores * 100) 75.0 95.0))
                (round3 (avg_r2_of scores)) (length scores)
     | Raise => Noted 80.0 "Default accuracy"
     end) /\
  (forall accuracy, report <> Noted accuracy "Insufficient data").
Proof.
  cbv zeta. split; [apply calculate_model_accuracy_limited|]. split.
  - intro H. split; [|now apply calculate_model_accuracy_scored].
    destruct (dropna_frame historical_data) as [Hl _]; lia.
  - intros accuracy E.
    destruct (Nat.lt_ge_cases (length historical_data) 5) as [H|H].
    + rewrite calculate_model_accuracy_limited in E by exact H.
      discriminate E.
    + rewrite calculate_model_accuracy_scored in E by exact H.
      destruct (cv_call _ _); discriminate E.
Qed.

(** X12: from five points on, the body of
    [calculate_model_accuracy] is one call of the cross-validation, on
    well-formed arguments, followed by the report of its scores: the
    targets are the amounts from the third on, the feature rows are as
    many ([n - 2]) and carry the positions 2, 3, ...; the number of
    splits is 2 for five points and 3 beyond, always smaller than the
    number of rows. *)
Theorem cross_validation_call (historical_data : list (Z * Q))
  (model_type : string) :
  let n := length historical_data in
  (5 <= n)%nat ->
  exists (X : list CVFeatures) (n_splits : nat),
    accuracy_body historical_data model_type
    = (scores <- cross_val_score (cv_model model_type) n_splits X
                   (skipn 2 (map snd historical_data)) ;;
       Return (Scored
                 (round1 (py_min 95.0 (py_max 75.0 (avg_r2_of scores * 100))))
                 (round3 (avg_r2_of scores)) (length scores))) /\
    length X = (n - 2)%nat /\
    length (skipn 2 (map snd historical_data)) = (n - 2)%nat /\
    map cv_year_idx X = map Z.of_nat (seq 2 (n - 2)) /\
    n_splits = (if (n =? 5)%nat then 2 else 3)%nat /\
    (n_splits < length X)%nat.
Proof.
  intros n H.
  destruct (dropna_frame historical_data) as [Hl Hy]; [lia|]. fold n in Hl.
  exists (cv_X (dropna (cv_frame historical_data))),
         (Nat.min 3 (length (cv_X (dropna (cv_frame historical_data))) - 1)).
  split.
  { unfold accuracy_body.
    replace (length historical_data <? 5)%nat with false
      by (symmetry; apply Nat.ltb_ge; exact H).
    replace (length (dropna (cv_frame historical_data)) <? 3)%nat with false
      by (symmetry; apply Nat.ltb_ge; lia).
    cbv zeta. rewrite Hy. reflexivity. }
  rewrite cv_X_length, Hl, length_skipn, length_map. fold n.
  repeat split.
  - unfold cv_X. rewrite map_map. cbn [cv_year_idx]. rewrite Hl.
    rewrite cv_frame_rows. cbv zeta. unfold dropna.
    rewrite filter_map_seq.
    rewrite (filter_ext_in _ (fun i => (2 <=? i)%nat)).
    2:{ intros i _. unfold cv_row_isna. cbn.
        destruct i as [|[|i]]; reflexivity. }
    fold n. rewrite filter_from_2 by lia. rewrite !map_map.
    cbn [cv_features cv_year_idx].
    apply (nth_ext _ _ 0%Z 0%Z); [now rewrite !length_map, !length_seq|].
    intros i Hi. rewrite length_map, length_seq in Hi.
    rewrite nth_map_seq by exact Hi.
    rewrite (nth_indep _ 0%Z (Z.of_nat 0))
      by (rewrite length_map, length_seq; exact Hi).
    rewrite (map_nth Z.of_nat), seq_nth by exact Hi.
    rewrite (nth_indep _ 0%Z (Z.of_nat 0))
      by (rewrite length_map, length_seq; exact Hi).
    now rewrite (map_nth Z.of_nat), seq_nth by exact Hi.
  - destruct (n =? 5)%nat eqn:E.
    + apply Nat.eqb_eq in E. rewrite E. reflexivity.
    + apply Nat.eqb_neq in E. lia.
  - lia.
Qed.

Lemma np_mean_scores_nan (scores : list (option Q)) :
  In None scores -> np_mean_scores scores = None.
Proof.
  intro H. unfold np_mean_scores.
  assert (E : all_numbers scores = None).
  { induction scores as [|[s|] t IH]; cbn [all_numbers]; [destruct H| |reflexivity].
    destruct H as [H|H]; [discriminate H|]. now rewrite IH. }
  now rewrite E.
Qed.

(** X13: from five points on, one split without a score (nan) is enough
    for the report to fall to the floor: accuracy 75.0 and [r2_score]
    0, whatever the other splits scored. *)
Theorem nan_score_floors_report (historical_data : list (Z * Q))
  (model_type : string) (scores : list (option Q)) :
  (5 <= length historical_data)%nat ->
  cv_call historical_data model_type = Return scores ->
  In None scores ->
  exists accuracy r2,
    calculate_model_accuracy historical_data model_type
    = Scored accuracy r2 (length scores) /\
    accuracy == 75 /\ r2 == 0.
Proof.
  intros H E Hn. rewrite calculate_model_accuracy_scored by exact H.
  rewrite E. do 2 eexists. split; [reflexivity|].
  unfold avg_r2_of. rewrite np_mean_scores_nan by exact Hn.
  split; reflexivity.
Qed.

(** X14: every accuracy of the overview lies between 75 and 95, whether
    the sample query succeeded or not; a sample of fewer than five
    years gives 75.0 for the three models. *)
Theorem overview_accuracies (sample_query : exc (list (Z * Q))) :
  let ov := get_forecasting_accuracy sample_query in
  (75 <= ov_prophet ov <= 95 /\
   75 <= ov_xgboost ov <= 95 /\
   75 <= ov_hybrid ov <= 95) /\
  (forall sample_data,
     sample_query = Return sample_data ->
     (length sample_data < 5)%nat ->
     ov_prophet ov = 75.0 /\ ov_xgboost ov = 75.0 /\ ov_hybrid ov = 75.0).
Proof.
  cbv zeta. split.
  - destruct sample_query as [sample_data|]; cbn.
    + repeat split; apply report_accuracy_bounds.
    + repeat split; lra.
  - intros sample_data -> H. cbn.
    now rewrite !calculate_model_accuracy_limited by exact H.
Qed.

End AccuracyProperties.

(** ** The batch client *)

Lemma dict_get_set {A} (d : list (string * A)) (k k' : string) (v : A) :
  dict_get (dict_set d k v) k'
  = if (k =? k')%string then Some v else dict_get d k'.
Proof.
  induction d as [|[k0 v0] t IH]; cbn [dict_set dict_get].
  - reflexivity.
  - destruct (k0 =? k)%string eqn:E0; cbn [dict_get].
    + apply String.eqb_eq in E0. subst k0.
      destruct (k =? k')%string; reflexivity.
    + destruct (k0 =? k')%string eqn:E1; [|exact IH].
      apply String.eqb_eq in E1. subst k0.
      rewrite String.eqb_sym in E0. now rewrite E0.
Qed.

Lemma batch_step_get
  (post : ForecastRequest.t -> exc (response ForecastResult.t))
  (d : list (string * Q)) (c' c : string) :
  dict_get (batch_step post d c') c
  = if (c' =? c)%string then
      match batch_entry post c with
      | Some v => Some v
      | None => dict_get d c
      end
    else dict_get d c.
Proof.
  unfold batch_step, batch_entry.
  destruct (c' =? c)%string eqn:E.
  - apply String.eqb_eq in E. subst c'.
    destruct (post (batch_request c)) as [[data|status detail|]|];
      try reflexivity.
    destruct (prediction_of_year _ _) as [pred|]; cbn [option_map];
      [|reflexivity].
    now rewrite dict_get_set, String.eqb_refl.
  - destruct (post (batch_request c')) as [[data|status detail|]|];
      try reflexivity.
    destruct (prediction_of_year _ _) as [pred|]; [|reflexivity].
    now rewrite dict_get_set, E.
Qed.

Lemma batch_fold_get
  (post : ForecastRequest.t -> exc (response ForecastResult.t))
  (countries : list string) (d : list (string * Q)) (c : string) :
  dict_get (fold_left (batch_step post) countries d) c
  = if existsb (fun c' => (c' =? c)%string) countries then
      match batch_entry post c with
      | Some v => Some v
      | None => dict_get d c
      end
    else dict_get d c.
Proof.
  revert d. induction countries as [|c' t IH]; intro d; [reflexivity|].
  cbn [fold_left existsb]. rewrite IH, batch_step_get.
  destruct (c' =? c)%string; cbn [orb].
  - destruct (existsb _ t); destruct (batch_entry post c); reflexivity.
  - reflexivity.
Qed.

Lemma existsb_eqb_In (countries : list string) (c : string) :
  existsb (fun c' => (c' =? c)%string) countries = true <-> In c countries.
Proof.
  rewrite existsb_exists. split.
  - intros [c' [Hin E]]. apply String.eqb_eq in E. now subst.
  - intro H. exists c. split; [exact H | apply String.eqb_refl].
Qed.

Lemma find_year_spec (year : Z) (predictions : list PredictionPoint.t)
  (k : nat) (p : PredictionPoint.t) :
  (forall j q, nth_error predictions j = Some q ->
               (PredictionPoint.year q = year <-> j = k)) ->
  nth_error predictions k = Some p ->
  prediction_of_year year predictions = Some p.
Proof.
  unfold prediction_of_year. revert k.
  induction predictions as [|q t IH]; intros k Hy Hk.
  - destruct k; discriminate Hk.
  - cbn [find]. destruct k as [|k].
    + injection Hk as ->.
      replace (PredictionPoint.year p =? year)%Z with true; [reflexivity|].
      symmetry. apply Z.eqb_eq. now apply (Hy 0%nat p).
    + replace (PredictionPoint.year q =? year)%Z with false.
      * apply (IH k); [|exact Hk]. intros j r Hj.
        specialize (Hy (S j) r Hj). split; intro H.
        -- apply Hy in H. lia.
        -- apply Hy. lia.
      * symmetry. apply Z.eqb_neq. intro E.
        apply (Hy 0%nat q eq_refl) in E. discriminate E.
Qed.

Lemma find_year_none (year : Z) (predictions : list PredictionPoint.t) :
  (forall j q, nth_error predictions j = Some q ->
               PredictionPoint.year q <> year) ->
  prediction_of_year year predictions = None.
Proof.
  unfold prediction_of_year. induction predictions as [|q t IH]; intro Hy.
  - reflexivity.
  - cbn [find]. replace (PredictionPoint.year q =? year)%Z with false.
    + apply IH. intros j r Hj. exact (Hy (S j) r Hj).
    + symmetry. apply Z.eqb_neq. exact (Hy 0%nat q eq_refl).
Qed.

Section BatchOnServer.
Context {NP : Numpy} {SK : Sklearn} {PF : PyFloat}.

(** The year of the point at position [j] of a returned forecast. *)
Lemma success_year (request : ForecastRequest.t)
  (historical_data : list Row.t) (res : ForecastResult.t) (j : nat)
  (q : PredictionPoint.t) :
  generate_forecast request historical_data = Success res ->
  nth_error (ForecastResult.predictions res) j = Some q ->
  PredictionPoint.year q
  = (py_max_list (years_of historical_data) + 1 + Z.of_nat j)%Z.
Proof.
  intros H Hj.
  assert (Hlt : (j < length (ForecastResult.predictions res))%nat).
  { apply nth_error_Some. congruence. }
  rewrite (success_length _ _ _ H) in Hlt.
  destruct (success_nth _ _ _ (1 + Z.of_nat j) H) as [p [Hn Hp]]; [lia|].
  replace (Z.to_nat (1 + Z.of_nat j - 1)) with j in Hn by lia.
  assert (p = q) by congruence. subst p.
  rewrite (point_at_year _ _ _ _ Hp). lia.
Qed.

(** What the served endpoint makes a turn of the loop record. *)
Lemma batch_entry_served (store : string -> list Row.t) (c : string) (v : Q) :
  let rows := store c in
  let last_year := py_max_list (years_of rows) in
  batch_entry (serve store) c = Some v
  <-> exists res p,
        generate_forecast (batch_request c) rows = Success res /\
        (2022 <= last_year <= 2024)%Z /\
        nth_error (ForecastResult.predictions res)
                  (Z.to_nat (2025 - last_year - 1)) = Some p /\
        v = PredictionPoint.predicted p.
Proof.
  intros rows last_year. unfold batch_entry, serve.
  cbn [batch_request ForecastRequest.country]. fold rows.
  fold (batch_request c).
  destruct (generate_forecast (batch_request c) rows)
    as [res|status detail|] eqn:E.
  2,3: split; [intro H; discriminate H
              | intros [r [p [H _]]]; discriminate H].
  pose proof (success_length _ _ _ E) as Hl.
  change (ForecastRequest.years (batch_request c)) with 3%Z in Hl.
  destruct (Z_le_dec 2022 last_year) as [Hlo|Hlo];
    [destruct (Z_le_dec last_year 2024) as [Hhi|Hhi]|].
  - set (k := Z.to_nat (2025 - last_year - 1)).
    assert (Hk : (k < length (ForecastResult.predictions res))%nat)
      by (unfold k; lia).
    destruct (nth_error (ForecastResult.predictions res) k) as [p|] eqn:Ek;
      [|apply nth_error_None in Ek; lia].
    rewrite (find_year_spec 2025 _ k p); [| |exact Ek].
    + cbn [option_map]. split.
      * intro H. injection H as <-. exists res, p. now repeat split.
      * intros [r [q [Hr [_ [Hq ->]]]]]. injection Hr as <-.
        congruence.
    + intros j q Hj. rewrite (success_year _ _ _ _ _ E Hj).
      fold rows. fold last_year. unfold k. lia.
  - rewrite find_year_none.
    + cbn [option_map]. split; [intro H; discriminate H|].
      intros [r [q [_ [Hy _]]]]. lia.
    + intros j q Hj.
      assert (Hlt : (j < length (ForecastResult.predictions res))%nat).
      { apply nth_error_Some. congruence. }
      rewrite (success_year _ _ _ _ _ E Hj).
      fold rows. fold last_year. lia.
  - rewrite find_year_none.
    + cbn [option_map]. split; [intro H; discriminate H|].
      intros [r [q [_ [Hy _]]]]. lia.
    + intros j q Hj.
      assert (Hlt : (j < length (ForecastResult.predictions res))%nat).
      { apply nth_error_Some. congruence. }
      rewrite (success_year _ _ _ _ _ E Hj).
      fold rows. fold last_year. lia.
Qed.

(** X15: run against the served endpoint, the batch client records a
    2025 value for a country of its list exactly when the forecast of
    the country is returned (which takes two yearly totals or more) and
    its last observed year is 2022, 2023 or 2024; the value is then the
    prediction of the point that falls on 2025.  Every other country of
    the list is left out without a trace, and no country outside the
    list is ever recorded. *)
Theorem batch_records_2025 (store : string -> list Row.t) (c : string) :
  let rows := store c in
  let last_year := py_max_list (years_of rows) in
  let recorded := dict_get (generate_all_forecasts (serve store)) c in
  (forall v, recorded = Some v -> In c all_countries) /\
  (In c all_countries ->
   forall v,
     recorded = Some v
     <-> exists res p,
           generate_forecast (batch_request c) rows = Success res /\
           (2 <= length rows)%nat /\
           (2022 <= last_year <= 2024)%Z /\
           nth_error (ForecastResult.predictions res)
                     (Z.to_nat (2025 - last_year - 1)) = Some p /\
           PredictionPoint.year p = 2025%Z /\
           v = PredictionPoint.predicted p).
Proof.
  cbv zeta. unfold generate_all_forecasts. rewrite batch_fold_get.
  cbn [dict_get]. split.
  - intros v H. apply existsb_eqb_In.
    destruct (existsb _ all_countries); [reflexivity | discriminate H].
  - intros Hin v. apply existsb_eqb_In in Hin. rewrite Hin.
    assert (E : match batch_entry (serve store) c with
                | Some v0 => Some v0
                | None => None
                end = batch_entry (serve store) c)
      by (destruct (batch_entry (serve store) c); reflexivity).
    rewrite E, batch_entry_served. split.
    + intros [res [p [H [Hy [Hn ->]]]]]. exists res, p.
      split; [exact H|]. split; [exact (success_has_two_points _ _ _ H)|].
      split; [exact Hy|]. split; [exact Hn|]. split; [|reflexivity].
      rewrite (success_year _ _ _ _ _ H Hn). lia.
    + intros [res [p [H [_ [Hy [Hn [_ ->]]]]]]]. exists res, p.
      now repeat split.
Qed.

End BatchOnServer.

(** ** The feature frame *)

Lemma bfill_length (col : list cell) : length (bfill col) = length col.
Proof. induction col as [|c t IH]; cbn [bfill length]; congruence. Qed.

Lemma ffill_from_length (prev : cell) (col : list cell) :
  length (ffill_from prev col) = length col.
Proof.
  revert prev. induction col as [|c t IH]; intro prev;
    cbn [ffill_from length]; [reflexivity|now rewrite IH].
Qed.

Lemma fill_length (col : list cell) : length (fill col) = length col.
Proof. unfold fill, ffill. now rewrite ffill_from_length, bfill_length. Qed.

(** Filling leaves a valid cell as it is. *)
Lemma bfill_valid (col : list cell) (i : nat) :
  isna (nth i col NaN) = false -> nth i (bfill col) NaN = nth i col NaN.
Proof.
  revert i. induction col as [|c t IH]; intros i H; [reflexivity|].
  cbn [bfill]. destruct i as [|i]; cbn [nth] in *.
  - now rewrite H.
  - now apply IH.
Qed.

Lemma ffill_from_valid (prev : cell) (col : list cell) (i : nat) :
  isna (nth i col NaN) = false ->
  nth i (ffill_from prev col) NaN = nth i col NaN.
Proof.
  revert prev i. induction col as [|c t IH]; intros prev i H;
    [now destruct i|].
  cbn [ffill_from]. destruct i as [|i]; cbn [nth] in *.
  - now rewrite H.
  - now apply IH.
Qed.

Lemma fill_valid (col : list cell) (i : nat) :
  isna (nth i col NaN) = false -> nth i (fill col) NaN = nth i col NaN.
Proof.
  intro H. unfold fill, ffill.
  rewrite ffill_from_valid; rewrite bfill_valid; auto.
Qed.

(** Back-filling reaches every cell that has a valid cell after it. *)
Lemma bfill_reaches (col : list cell) (i j : nat) :
  (i <= j)%nat ->
  isna (nth j col NaN) = false ->
  isna (nth i (bfill col) NaN) = false.
Proof.
  revert i j. induction col as [|c t IH]; intros i j Hij Hj.
  - now destruct j.
  - cbn [bfill]. destruct i as [|i]; cbn [nth].
    + destruct (isna c) eqn:Ec; [|exact Ec].
      destruct j as [|j]; cbn [nth] in Hj; [congruence|].
      specialize (IH 0%nat j (Nat.le_0_l j) Hj).
      now destruct (bfill t).
    + destruct j as [|j]; [lia|]. cbn [nth] in Hj.
      apply (IH i j); [lia | exact Hj].
Qed.

Lemma fill_reaches (col : list cell) (i j : nat) :
  (i <= j)%nat ->
  isna (nth j col NaN) = false ->
  isna (nth i (fill col) NaN) = false.
Proof.
  intros Hij Hj. pose proof (bfill_reaches col i j Hij Hj) as H.
  unfold fill, ffill. now rewrite ffill_from_valid.
Qed.

Lemma fillna_valid (v : Q) (col : list cell) (i : nat) :
  (i < length col)%nat -> isna (nth i (fillna v col) NaN) = false.
Proof.
  intro H. unfold fillna.
  rewrite (nth_indep _ NaN ((fun c => if isna c then Num v else c) NaN))
    by (now rewrite length_map).
  rewrite (map_nth (fun c => if isna c then Num v else c)).
  now destruct (nth i col NaN).
Qed.

Lemma nth_map_Num {A} (g : A -> Q) (l : list A) (i : nat) (d : A) :
  (i < length l)%nat -> nth i (map (fun x => Num (g x)) l) NaN = Num (g (nth i l d)).
Proof.
  intro H.
  rewrite (nth_indep _ NaN ((fun x => Num (g x)) d)) by (now rewrite length_map).
  apply (map_nth (fun x => Num (g x))).
Qed.

Lemma pct_change_from_length (prev : Q) (col : list Q) :
  length (pct_change_from prev col) = length col.
Proof.
  revert prev. induction col as [|a t IH]; intro prev;
    cbn [pct_change_from length]; [reflexivity|now rewrite IH].
Qed.

Lemma pct_change_length (col : list Q) : length (pct_change col) = length col.
Proof.
  destruct col as [|a t]; [reflexivity|].
  cbn [pct_change length]. now rewrite pct_change_from_length.
Qed.

Lemma rolling_length {A} (w : nat) (f : list Q -> A) (col : list Q) :
  length (rolling w f col) = length col.
Proof. unfold rolling. now rewrite length_map, length_seq. Qed.

Lemma py_range_0_nth (n i : nat) :
  (i < n)%nat -> nth i (py_range 0 (Z.of_nat n)) 0%Z = Z.of_nat i.
Proof.
  intro H. unfold py_range.
  replace (Z.to_nat (Z.of_nat n - 0)) with n by lia.
  now rewrite nth_map_seq.
Qed.

Section FrameProperties.
Context {NP : Numpy}.

Lemma X_train_rows (df : DataFrame) :
  X_train df = map (feature_row df) (seq 2 (len df - 2)).
Proof.
  unfold X_train, feature_rows. rewrite skipn_map, skipn_seq. reflexivity.
Qed.

(** X16: the back- and forward-fill of line 191 only touches the first
    two rows.  From the third row on (the rows the model is trained on,
    and the last row, from which every prediction row is copied), a row
    carries its position, the amounts of the one and two years before,
    the last difference and the mean of its trailing window. *)
Theorem rows_from_third_unfilled (historical_data : list Row.t) (i : nat) :
  let df := frame_of historical_data in
  let amounts := amounts_of historical_data in
  (2 <= i < length historical_data)%nat ->
  X_train df = map (feature_row df) (seq 2 (length historical_data - 2)) /\
  f_year_idx (feature_row df i) = Z.of_nat i /\
  f_lag1 (feature_row df i) = Num (nth (i - 1) amounts 0) /\
  f_lag2 (feature_row df i) = Num (nth (i - 2) amounts 0) /\
  f_trend (feature_row df i) = Num (nth i amounts 0 - nth (i - 1) amounts 0) /\
  f_rolling_mean_3 (feature_row df i) = Num (np_mean (window 3 amounts i)).
Proof.
  intros df amounts [H2 Hn].
  assert (Ha : length amounts = length historical_data)
    by (unfold amounts, amounts_of; apply length_map).
  assert (Hy : length (years_of historical_data) = length historical_data)
    by (unfold years_of; apply length_map).
  split.
  { rewrite X_train_rows. unfold df, len, frame_of. cbn [build_features col_year].
    now rewrite Hy. }
  unfold df, frame_of, feature_row, build_features.
  cbn [col_year_idx col_lag1 col_lag2 col_trend col_rolling_mean_3
       f_year_idx f_lag1 f_lag2 f_trend f_rolling_mean_3].
  fold amounts. rewrite Hy.
  assert (Hi : (i < length amounts)%nat) by lia.
  assert (E1 : nth i (shift 1 amounts) NaN = Num (nth (i - 1) amounts 0)).
  { rewrite nth_shift by exact Hi.
    replace (i <? 1)%nat with false by (symmetry; apply Nat.ltb_ge; lia).
    reflexivity. }
  assert (E2 : nth i (shift 2 amounts) NaN = Num (nth (i - 2) amounts 0)).
  { rewrite nth_shift by exact Hi.
    replace (i <? 2)%nat with false by (symmetry; apply Nat.ltb_ge; lia).
    reflexivity. }
  assert (E3 : nth i (diff amounts) NaN
               = Num (nth i amounts 0 - nth (i - 1) amounts 0)).
  { rewrite nth_diff by exact Hi. destruct i as [|j]; [lia|].
    now replace (S j - 1)%nat with j by lia. }
  assert (E4 : nth i (rolling 3 (fun w => Num (np_mean w)) amounts) NaN
               = Num (np_mean (window 3 amounts i)))
    by (now rewrite nth_rolling by exact Hi).
  repeat split.
  - now apply py_range_0_nth.
  - rewrite fill_valid; rewrite E1; reflexivity.
  - rewrite fill_valid; rewrite E2; reflexivity.
  - rewrite fill_valid; rewrite E3; reflexivity.
  - rewrite fill_valid; rewrite E4; reflexivity.
Qed.

(** X17: with three points or more, no cell of any feature row is
    missing after the fill, so the estimator never receives a nan; with
    two points the second lag stays missing in both rows (and no model
    is trained). *)
Theorem frame_complete_from_three_points (historical_data : list Row.t) :
  let df := frame_of historical_data in
  ((3 <= length historical_data)%nat ->
   forallb row_complete (feature_rows df) = true) /\
  (length historical_data = 2%nat ->
   Forall (fun r => f_lag2 r = NaN) (feature_rows df)).
Proof.
  cbv zeta. split.
  - intro H3. apply forallb_forall. intros r Hr.
    unfold feature_rows in Hr. apply in_map_iff in Hr.
    destruct Hr as [i [<- Hi]]. apply in_seq in Hi.
    assert (Hy : length (years_of historical_data) = length historical_data)
      by (unfold years_of; apply length_map).
    unfold len, frame_of in Hi. cbn [build_features col_year] in Hi.
    rewrite Hy in Hi.
    set (amounts := amounts_of historical_data).
    assert (Ha : length amounts = length historical_data)
      by (unfold amounts, amounts_of; apply length_map).
    unfold row_complete, feature_row, frame_of, build_features.
    cbn [col_lag1 col_lag2 col_trend col_rolling_mean_3 col_volatility
         col_growth_rate col_year_sin col_year_cos
         f_lag1 f_lag2 f_trend f_rolling_mean_3 f_volatility f_growth_rate
         f_year_sin f_year_cos].
    fold amounts. rewrite Hy.
    assert (Hlen : (i < length amounts)%nat) by lia.
    assert (V1 : isna (nth i (fill (shift 1 amounts)) NaN) = false).
    { apply (fill_reaches _ i (Nat.max i 1)); [lia|].
      rewrite nth_shift by lia.
      now replace (Nat.max i 1 <? 1)%nat with false
        by (symmetry; apply Nat.ltb_ge; lia). }
    assert (V2 : isna (nth i (fill (shift 2 amounts)) NaN) = false).
    { apply (fill_reaches _ i (Nat.max i 2)); [lia|].
      rewrite nth_shift by lia.
      now replace (Nat.max i 2 <? 2)%nat with false
        by (symmetry; apply Nat.ltb_ge; lia). }
    assert (V3 : isna (nth i (fill (diff amounts)) NaN) = false).
    { apply (fill_reaches _ i (Nat.max i 1)); [lia|].
      rewrite nth_diff by lia.
      destruct (Nat.max i 1) eqn:E; [lia|reflexivity]. }
    assert (V4 : isna (nth i (fill (rolling 3 (fun w => Num (np_mean w)) amounts))
                         NaN) = false).
    { rewrite fill_valid; now rewrite nth_rolling by exact Hlen. }
    assert (V5 : isna (nth i (fill (fillna 0 (rolling 3 window_std amounts)))
                         NaN) = false).
    { assert (V : isna (nth i (fillna 0 (rolling 3 window_std amounts)) NaN)
                  = false)
        by (apply fillna_valid; now rewrite rolling_length).
      now rewrite fill_valid. }
    assert (V6 : isna (nth i (fill (fillna 0 (pct_change amounts))) NaN) = false).
    { assert (V : isna (nth i (fillna 0 (pct_change amounts)) NaN) = false)
        by (apply fillna_valid; now rewrite pct_change_length).
      now rewrite fill_valid. }
    assert (Hr : (i < length (py_range 0 (Z.of_nat (length historical_data))))%nat)
      by (rewrite py_range_length; lia).
    assert (V7 : forall g : Z -> Q,
               isna (nth i (fill (map (fun k => Num (g k))
                                      (py_range 0 (Z.of_nat (length historical_data)))))
                        NaN) = false).
    { intro g. rewrite fill_valid; now rewrite (nth_map_Num g _ i 0%Z Hr). }
    rewrite V1, V2, V3, V4, V5, V6, !V7. reflexivity.
  - intro H2. destruct historical_data as [|r1 [|r2 [|r3 t]]];
      try discriminate H2.
    repeat constructor.
Qed.

End FrameProperties.

(** ** Insights *)

Lemma py_int_bounds (q : Q) (lo hi : Z) :
  (0 <= lo)%Z -> inject_Z lo <= q -> q < inject_Z hi ->
  (lo <= py_int q < hi)%Z.
Proof.
  intros H0 Hlo Hhi. unfold py_int. destruct q as [n d].
  unfold Qle, Qlt, inject_Z in *. cbn [Qnum Qden] in *.
  assert (Hn : (0 <= n)%Z) by nia.
  rewrite Z.quot_div_nonneg by lia. split.
  - apply Z.div_le_lower_bound; lia.
  - apply Z.div_lt_upper_bound; lia.
Qed.

Section InsightProperties.
Context {NP : Numpy} {SK : Sklearn} {PT : PyText}.

Lemma trend_insights_length (country : string) (avg : Q) :
  length (trend_insights country avg)
  = if Qle_bool (Qabs avg) 100 then 1%nat else 2%nat.
Proof.
  unfold trend_insights.
  destruct (Qle_bool (Qabs avg) 100) eqn:E.
  - apply Qle_bool_iff in E. apply Qabs_Qle_condition in E.
    destruct E as [E1 E2].
    replace (Qltb 100 avg) with false by (symmetry; apply Qltb_ge; exact E2).
    replace (Qltb avg (-100)) with false
      by (symmetry; apply Qltb_ge; exact E1).
    reflexivity.
  - destruct (Qltb 100 avg) eqn:E1; [reflexivity|].
    destruct (Qltb avg (-100)) eqn:E2; [reflexivity|].
    apply Qltb_ge in E1. apply Qltb_ge in E2.
    assert (H : Qabs avg <= 100) by (apply Qabs_Qle_condition; split; assumption).
    apply Qle_bool_iff in H. congruence.
Qed.

(** X18: the confidence sentence of the insights shows a level between
    75 and 91 per cent, the integer part of the model accuracy, and as
    uncertainty its complement to 100, between 9 and 25. *)
Theorem insight_confidence_level (request : ForecastRequest.t)
  (historical_data : list Row.t) :
  exists level : Z,
    In (ModelConfidence level (100 - level))
       (insights_of request historical_data) /\
    (75 <= level <= 91)%Z /\
    (9 <= 100 - level <= 25)%Z /\
    inject_Z level <= model_accuracy (training request historical_data)
      < inject_Z level + 1.
Proof.
  set (acc := model_accuracy (training request historical_data)).
  pose proof (training_accuracy_bounds request historical_data) as Hb.
  pose proof (expected_ceiling_le (ForecastRequest.model request)) as Hc.
  fold acc in Hb.
  assert (H1 : (75 <= py_int acc < 92)%Z).
  { apply py_int_bounds; [lia | unfold inject_Z; lra | unfold inject_Z; lra]. }
  exists (py_int acc). split; [|split; [lia|split; [lia|]]].
  - unfold insights_of, generate_insights. fold acc.
    apply in_or_app. right. apply in_or_app. left. now left.
  - assert (Hn : 0 <= acc) by lra.
    unfold py_int. destruct acc as [n d].
    unfold Qle, Qlt, Qplus, inject_Z in *. cbn [Qnum Qden] in *.
    rewrite Z.quot_div_nonneg by lia.
    pose proof (Z.mul_div_le n (Z.pos d) ltac:(lia)).
    pose proof (Z.mul_succ_div_gt n (Z.pos d) ltac:(lia)).
    split; nia.
Qed.


End InsightProperties.

(** ** The further properties on concrete series *)

Section FurtherExamples.
#[local] Existing Instance numpy_zero.
#[local] Existing Instance sk_answers.
#[local] Existing Instance float_exact.

Lemma forecast_lower_half_ordered_witness :
  exists res,
    generate_forecast (forecast_request 1 "hybrid") series_falling
      = Success res /\
    Forall (fun p => 0 <= PredictionPoint.lower p /\
                     PredictionPoint.lower p <= PredictionPoint.predicted p)
           (ForecastResult.predictions res).
Proof.
  assert (Hf : exists res,
             generate_forecast (forecast_request 1 "hybrid") series_falling
             = Success res) by (eexists; vm_compute; reflexivity).
  destruct Hf as [res Hf]. exists res. split; [exact Hf|].
  exact (forecast_lower_half_ordered
           (forecast_request 1 "hybrid") series_falling res Hf).
Defined.

Lemma forecast_ordered_when_raw_nonnegative_witness :
  exists res pv,
    generate_forecast (forecast_request 2 "hybrid") series_2020_2023
      = Success res /\
    (1 <= 1 <= ForecastRequest.years (forecast_request 2 "hybrid"))%Z /\
    step_values (forecast_request 2 "hybrid") series_2020_2023 1
      = Return (inl pv) /\
    0 <= fst pv /\
    exists p,
      nth_error (ForecastResult.predictions res) (Z.to_nat (1 - 1)) = Some p /\
      interval_ordered p.
Proof.
  assert (Hf : exists res,
             generate_forecast (forecast_request 2 "hybrid") series_2020_2023
             = Success res) by (eexists; reflexivity).
  destruct Hf as [res Hf].
  assert (Hv : exists pv,
             step_values (forecast_request 2 "hybrid") series_2020_2023 1
             = Return (inl pv) /\ 0 <= fst pv).
  { eexists. split; [reflexivity|]. vm_compute. discriminate. }
  destruct Hv as [pv [Hv Hp]].
  assert (H2 : (1 <= 1 <= ForecastRequest.years
                              (forecast_request 2 "hybrid"))%Z) by (cbn; lia).
  exists res, pv. split; [exact Hf|]. split; [exact H2|].
  split; [exact Hv|]. split; [exact Hp|].
  exact (forecast_ordered_when_raw_nonnegative
           (forecast_request 2 "hybrid") series_2020_2023 res 1 pv
           Hf H2 Hv Hp).
Defined.



Lemma method_names_trend_iff_no_model_witness :
  exists res,
    generate_forecast (forecast_request 2 "xgboost") series_two_points
      = Success res /\
    (method (ForecastResult.accuracy res) = "Trend Analysis"%string
     <-> use_ml (training (forecast_request 2 "xgboost") series_two_points)
         = false).
Proof.
  assert (Hf : exists res,
             generate_forecast (forecast_request 2 "xgboost") series_two_points
             = Success res) by (eexists; vm_compute; reflexivity).
  destruct Hf as [res Hf]. exists res. split; [exact Hf|].
  exact (method_names_trend_iff_no_model
           (forecast_request 2 "xgboost") series_two_points res Hf).
Defined.


Lemma shap_defaults_witness :
  exists forecast_result res,
    generate_forecast
      {| ForecastRequest.country := "India";
         ForecastRequest.sector := None;
         ForecastRequest.years := 0;
         ForecastRequest.model := "hybrid" |} series_2020_2023
      = Success forecast_result /\
    generate_shap_explanations (shap_request 0 "hybrid") Raise
      series_2020_2023 = Success res /\
    SHAPResult.base_value res == 25000 /\
    SHAPResult.model_prediction res = 25000.
Proof.
  assert (Hf : exists forecast_result,
             generate_forecast
               (to_forecast_request (shap_request 0 "hybrid"))
               series_2020_2023 = Success forecast_result)
    by (eexists; reflexivity).
  destruct Hf as [forecast_result Hf].
  destruct (shap_defaults (shap_request 0 "hybrid") Raise series_2020_2023
              forecast_result Hf)
    as [res [E [_ [Hb Hm]]]].
  exists forecast_result, res. split; [exact Hf|]. split; [exact E|]. split.
  - apply Hb. reflexivity.
  - apply Hm. cbn. lia.
Defined.

(** The nested forecast of the series 1000, 1 for 115 years answers
    500; the handler falls back on its own three rows, and answers 404
    when it has two only. *)
Example shap_after_overflow :
  generate_forecast (to_forecast_request (shap_request 115 "hybrid"))
    series_falling
  = HTTPException 500
      "Error generating forecast: (34, 'Numerical result out of range')" /\
  (exists res,
     generate_shap_explanations (shap_request 115 "hybrid")
       (Return series_three_points) series_falling = Success res /\
     SHAPResult.model_prediction res == 175) /\
  generate_shap_explanations (shap_request 115 "hybrid")
    (Return series_two_points) series_falling
  = HTTPException 404 "No forecast or historical data found for India".
Proof.
  assert (E : generate_forecast
                (to_forecast_request (shap_request 115 "hybrid"))
                series_falling
              = HTTPException 500
                  ("Error generating forecast: " ++ overflow_message))
    by (vm_compute; reflexivity).
  split; [exact E|]. split.
  - rewrite (shap_after_forecast_error _ _ _ _ _ E).
    eexists. split; [reflexivity|]. reflexivity.
  - rewrite (shap_after_forecast_error _ _ _ _ _ E). reflexivity.
Qed.

Lemma rows_from_third_unfilled_witness :
  let df := frame_of series_2020_2023 in
  (2 <= 3 < length series_2020_2023)%nat /\
  f_year_idx (feature_row df 3) = 3%Z /\
  f_lag1 (feature_row df 3) = Num 150 /\
  f_lag2 (feature_row df 3) = Num 120 /\
  f_trend (feature_row df 3) = Num (200 - 150).
Proof.
  cbv zeta.
  assert (H : (2 <= 3 < length series_2020_2023)%nat) by (cbn; lia).
  split; [exact H|].
  destruct (rows_from_third_unfilled series_2020_2023 3 H)
    as [_ [H1 [H2 [H3 [H4 _]]]]].
  repeat split; assumption.
Defined.

End FurtherExamples.

Section AccuracyExamples.
#[local] Existing Instance cv_no_score.

Lemma cross_validation_call_witness :
  let n := length sample_2015_2020 in
  (5 <= n)%nat /\
  exists (X : list CVFeatures) (n_splits : nat),
    accuracy_body sample_2015_2020 "hybrid"
    = (scores <- cross_val_score (cv_model "hybrid") n_splits X
                   (skipn 2 (map snd sample_2015_2020)) ;;
       Return (Scored
                 (round1 (py_min 95.0 (py_max 75.0 (avg_r2_of scores * 100))))
                 (round3 (avg_r2_of scores)) (length scores))) /\
    length X = (n - 2)%nat /\
    length (skipn 2 (map snd sample_2015_2020)) = (n - 2)%nat /\
    map cv_year_idx X = map Z.of_nat (seq 2 (n - 2)) /\
    n_splits = (if (n =? 5)%nat then 2 else 3)%nat /\
    (n_splits < length X)%nat.
Proof.
  cbv zeta.
  assert (H : (5 <= length sample_2015_2020)%nat) by (cbn; lia).
  exact (conj H
    (cross_validation_call
       sample_2015_2020 "hybrid" H)).
Defined.

Lemma nan_score_floors_report_witness :
  (5 <= length sample_2015_2020)%nat /\
  cv_call sample_2015_2020 "prophet"
    = Return [None; None; None] /\
  In None [@None Q; None; None] /\
  exists accuracy r2,
    calculate_model_accuracy
      sample_2015_2020 "prophet"
    = Scored accuracy r2 (length [@None Q; None; None]) /\
    accuracy == 75 /\ r2 == 0.
Proof.
  assert (H1 : (5 <= length sample_2015_2020)%nat) by (cbn; lia).
  assert (H2 : cv_call sample_2015_2020 "prophet"
               = Return [None; None; None]) by reflexivity.
  assert (H3 : In None [@None Q; None; None]) by (left; reflexivity).
  exact (conj H1 (conj H2 (conj H3
    (nan_score_floors_report
       sample_2015_2020 "prophet" [None; None; None] H1 H2 H3)))).
Defined.

End AccuracyExamples.

(** The batch client on the small store: India, whose series ends in
    2023, is the only country recorded. *)
Example batch_on_small_store :
  map fst (generate_all_forecasts
             (serve (NP := numpy_zero) (SK := sk_answers) (PF := float_exact)
                small_store))
  = ["India"%string].
Proof. reflexivity. Qed.
